(** * Pixel: the drawing canvas component

    A shallow embedding of [src/app/components/canvas/canvas.component.ts]
    (class [CanvasComponent]) and the properties of its history manager,
    shape renderer, input capture and export.

    Conventions of the embedding.
    - A JavaScript [number] is an IEEE 754 binary64 value: Rocq's primitive
      [float].
    - A JavaScript [string] is a [string].
    - The component's private fields and the state of the 2D context it
      owns are the fields of the record [State]; every method is a function
      on [State].  A method that can raise returns in the monad [Result].
    - The browser (rendering surface, image codec) is the class [Surface]:
      operations on an abstract pixel grid together with the few laws the
      properties below rely on.
    - An [Image] whose [src] was set and whose [onload] has not run yet is
      an entry of the field [pending]; the browser runs it later, through
      [imageLoaded]. *)

From Stdlib Require Import List String Ascii Bool Arith Lia.
From Stdlib Require Import Floats.PrimFloat.
Import ListNotations.

Local Open Scope string_scope.
Local Open Scope list_scope.

(** ** Numbers *)

Module JS.

Definition number : Type := float.

(** [Math.PI] *)
Definition Math_PI : number := 0x1.921fb54442d18p+1%float.

(** [Math.sqrt(x)] *)
Definition Math_sqrt (x : number) : number := PrimFloat.sqrt x.

(** [Math.pow(x, 2)], the only exponent the component uses: the square of
    [x], rounded once. *)
Definition Math_pow2 (x : number) : number := (x * x)%float.

(** The errors the component can raise. *)
Inductive error : Type :=
| Error (msg : string)      (* [throw new Error(msg)] *)
| TypeError (msg : string). (* reading a property of [undefined] *)

(** Computations that may throw. *)
Definition Result (A : Type) : Type := (error + A)%type.

Definition ret {A} (a : A) : Result A := inr a.
Definition throw {A} (e : error) : Result A := inl e.
Definition bind {A B} (m : Result A) (k : A -> Result B) : Result B :=
  match m with
  | inl e => inl e
  | inr a => k a
  end.

(** Truthiness of a string: every string but the empty one. *)
Definition truthy (s : string) : bool :=
  match s with
  | EmptyString => false
  | String _ _ => true
  end.

(** [s.toLowerCase()] on the ASCII range. *)
Definition lower_ascii (c : ascii) : ascii :=
  let n := nat_of_ascii c in
  if ((65 <=? n)%nat && (n <=? 90)%nat)%bool then ascii_of_nat (n + 32) else c.

Fixpoint toLowerCase (s : string) : string :=
  match s with
  | EmptyString => EmptyString
  | String c r => String (lower_ascii c) (toLowerCase r)
  end.

(** Array methods used on the two history stacks. *)
Section Arrays.
Context {A : Type}.

(** [a.push(x)] *)
Definition push (a : list A) (x : A) : list A := a ++ [x].

(** [a.shift()]: the array without its first element. *)
Definition shift (a : list A) : list A := tl a.

(** [a.pop()]: the last element, if any, and the array without it. *)
Definition pop (a : list A) : option A * list A :=
  match a with
  | [] => (None, [])
  | x :: r => (Some (last r x), removelast a)
  end.

(** [a[a.length - 1]], and also [a.slice(-1)[0]]. *)
Definition peek (a : list A) : option A :=
  match a with
  | [] => None
  | x :: r => Some (last r x)
  end.
End Arrays.

End JS.

Import JS.

Declare Scope result_scope.
Notation "x <- m ;; k" := (bind m (fun x => k))
  (at level 61, m at next level, right associativity) : result_scope.
Notation "' p <- m ;; k" := (bind m (fun x => match x with p => k end))
  (at level 61, p pattern, m at next level, right associativity) : result_scope.

(** ** The browser: rendering surface and image codec

    The component draws through a [CanvasRenderingContext2D], reads the
    canvas back with [toDataURL] and decodes data URLs with [Image].  Their
    effect on pixels is the browser's; the component only chooses the calls
    and their arguments. *)

(** One segment of the context's current path. *)
Inductive PathCmd : Type :=
| MoveTo (x y : number)
| LineTo (x y : number)
| Rect (x y w h : number)
| Arc (x y radius startAngle endAngle : number)
| ClosePath.

Definition Path : Type := list PathCmd.

(** A CSS colour written [#rgb] or [#rrggbb] has no alpha channel. *)
Definition is_hex_digit (c : ascii) : bool :=
  let n := nat_of_ascii c in
  ((48 <=? n)%nat && (n <=? 57)%nat) || ((65 <=? n)%nat && (n <=? 70)%nat)
  || ((97 <=? n)%nat && (n <=? 102)%nat).

Definition opaque_color (c : string) : bool :=
  match c with
  | String "#" digits =>
      ((String.length digits =? 3)%nat || (String.length digits =? 6)%nat)
      && forallb is_hex_digit (list_ascii_of_string digits)
  | _ => false
  end.

Class Surface : Type := {
  (** The pixels of a bitmap of the size of the component's canvas. *)
  Raster : Type;
  (** [canvas.width] and [canvas.height]: attributes set by the template
      [canvas.component.html], never written by the component. *)
  canvas_width : number;
  canvas_height : number;
  (** A canvas that was just created or resized: transparent black. *)
  blank : Raster;
  (** [ctx.clearRect(x, y, w, h)] *)
  clearRect : number -> number -> number -> number -> Raster -> Raster;
  (** [ctx.fillRect(x, y, w, h)] under [ctx.fillStyle] *)
  fillRect : string -> number -> number -> number -> number -> Raster -> Raster;
  (** [ctx.stroke()] of the current path under [ctx.strokeStyle] *)
  strokePath : string -> Path -> Raster -> Raster;
  (** [ctx.drawImage(img, x, y)] *)
  drawImage : Raster -> number -> number -> Raster -> Raster;
  (** [canvas.toDataURL()], which encodes as PNG by default, as does
      [canvas.toDataURL('image/png')]. *)
  toDataURL : Raster -> string;
  (** What an [Image] holds once its [src] has loaded; [None] when the
      load fails and [onload] never runs. *)
  decodeImage : string -> option Raster;
  (** Every pixel has full alpha. *)
  opaque : Raster -> bool;

  (** PNG is lossless. *)
  decode_toDataURL : forall r, decodeImage (toDataURL r) = Some r;
  (** Drawing an image of the canvas' size at the origin of a canvas that
      was cleared whole gives the image. *)
  drawImage_cleared : forall img r,
    drawImage img 0%float 0%float
      (clearRect 0%float 0%float canvas_width canvas_height r) = img;
  (** Filling the whole canvas with a colour without alpha leaves no
      transparent pixel. *)
  fillRect_opaque : forall c r,
    opaque_color c = true ->
    opaque (fillRect c 0%float 0%float canvas_width canvas_height r) = true;
  (** Source-over compositing onto an opaque bitmap keeps it opaque. *)
  drawImage_opaque : forall img x y r,
    opaque r = true -> opaque (drawImage img x y r) = true
}.

(** ** The component *)

(** An [Image] waiting for its [onload]. *)
Inductive PendingImage : Type :=
| RedrawImage (src : string)   (* created by [redraw] *)
| RestoreImage (src : string). (* created by [restoreCanvas] *)

(** A file handed to the browser's download mechanism by [link.click()]. *)
Record Download : Type := {
  download : string; (* [link.download] *)
  href : string      (* [link.href] *)
}.

(** [getBoundingClientRect()] of the canvas element. *)
Record DOMRect : Type := {
  left : number;
  top : number
}.

(** DOM events, with the fields the component reads. *)
Record MouseEvent : Type := {
  clientX : number;
  clientY : number
}.

Record Touch : Type := {
  touchClientX : number; (* [touch.clientX] *)
  touchClientY : number  (* [touch.clientY] *)
}.

Record TouchEvent : Type := {
  touches : list Touch
}.

Record KeyboardEvent : Type := {
  ctrlKey : bool;
  shiftKey : bool;
  key : string
}.

Inductive Event : Type :=
| EMouse (e : MouseEvent)
| ETouch (e : TouchEvent)
| EKeyboard (e : KeyboardEvent).

Section Component.
Context {browser : Surface}.

Record State : Type := {
  (* the canvas element *)
  pixels : Raster;
  boundingClientRect : DOMRect;
  (* [this.ctx] *)
  path : Path;
  strokeStyle : string;
  fillStyle : string;
  (* the fields of the class *)
  drawing : bool;
  selectedShape : string;
  startX : number;
  startY : number;
  undoStack : list string;
  redoStack : list string;
  backgroundColor : string;
  (* the browser's side *)
  pending : list PendingImage;
  downloads : list Download
}.

Definition set_pixels (r : Raster) (s : State) : State :=
  {| pixels := r; boundingClientRect := boundingClientRect s;
     path := path s; strokeStyle := strokeStyle s; fillStyle := fillStyle s;
     drawing := drawing s; selectedShape := selectedShape s;
     startX := startX s; startY := startY s;
     undoStack := undoStack s; redoStack := redoStack s;
     backgroundColor := backgroundColor s;
     pending := pending s; downloads := downloads s |}.

Definition set_path (p : Path) (s : State) : State :=
  {| pixels := pixels s; boundingClientRect := boundingClientRect s;
     path := p; strokeStyle := strokeStyle s; fillStyle := fillStyle s;
     drawing := drawing s; selectedShape := selectedShape s;
     startX := startX s; startY := startY s;
     undoStack := undoStack s; redoStack := redoStack s;
     backgroundColor := backgroundColor s;
     pending := pending s; downloads := downloads s |}.

Definition set_strokeStyle (c : string) (s : State) : State :=
  {| pixels := pixels s; boundingClientRect := boundingClientRect s;
     path := path s; strokeStyle := c; fillStyle := fillStyle s;
     drawing := drawing s; selectedShape := selectedShape s;
     startX := startX s; startY := startY s;
     undoStack := undoStack s; redoStack := redoStack s;
     backgroundColor := backgroundColor s;
     pending := pending s; downloads := downloads s |}.

Definition set_fillStyle (c : string) (s : State) : State :=
  {| pixels := pixels s; boundingClientRect := boundingClientRect s;
     path := path s; strokeStyle := strokeStyle s; fillStyle := c;
     drawing := drawing s; selectedShape := selectedShape s;
     startX := startX s; startY := startY s;
     undoStack := undoStack s; redoStack := redoStack s;
     backgroundColor := backgroundColor s;
     pending := pending s; downloads := downloads s |}.

Definition set_drawing (b : bool) (s : State) : State :=
  {| pixels := pixels s; boundingClientRect := boundingClientRect s;
     path := path s; strokeStyle := strokeStyle s; fillStyle := fillStyle s;
     drawing := b; selectedShape := selectedShape s;
     startX := startX s; startY := startY s;
     undoStack := undoStack s; redoStack := redoStack s;
     backgroundColor := backgroundColor s;
     pending := pending s; downloads := downloads s |}.

Definition set_selectedShape (shape : string) (s : State) : State :=
  {| pixels := pixels s; boundingClientRect := boundingClientRect s;
     path := path s; strokeStyle := strokeStyle s; fillStyle := fillStyle s;
     drawing := drawing s; selectedShape := shape;
     startX := startX s; startY := startY s;
     undoStack := undoStack s; redoStack := redoStack s;
     backgroundColor := backgroundColor s;
     pending := pending s; downloads := downloads s |}.

Definition set_start (x y : number) (s : State) : State :=
  {| pixels := pixels s; boundingClientRect := boundingClientRect s;
     path := path s; strokeStyle := strokeStyle s; fillStyle := fillStyle s;
     drawing := drawing s; selectedShape := selectedShape s;
     startX := x; startY := y;
     undoStack := undoStack s; redoStack := redoStack s;
     backgroundColor := backgroundColor s;
     pending := pending s; downloads := downloads s |}.

Definition set_undoStack (u : list string) (s : State) : State :=
  {| pixels := pixels s; boundingClientRect := boundingClientRect s;
     path := path s; strokeStyle := strokeStyle s; fillStyle := fillStyle s;
     drawing := drawing s; selectedShape := selectedShape s;
     startX := startX s; startY := startY s;
     undoStack := u; redoStack := redoStack s;
     backgroundColor := backgroundColor s;
     pending := pending s; downloads := downloads s |}.

Definition set_redoStack (r : list string) (s : State) : State :=
  {| pixels := pixels s; boundingClientRect := boundingClientRect s;
     path := path s; strokeStyle := strokeStyle s; fillStyle := fillStyle s;
     drawing := drawing s; selectedShape := selectedShape s;
     startX := startX s; startY := startY s;
     undoStack := undoStack s; redoStack := r;
     backgroundColor := backgroundColor s;
     pending := pending s; downloads := downloads s |}.

Definition set_backgroundColor (c : string) (s : State) : State :=
  {| pixels := pixels s; boundingClientRect := boundingClientRect s;
     path := path s; strokeStyle := strokeStyle s; fillStyle := fillStyle s;
     drawing := drawing s; selectedShape := selectedShape s;
     startX := startX s; startY := startY s;
     undoStack := undoStack s; redoStack := redoStack s;
     backgroundColor := c;
     pending := pending s; downloads := downloads s |}.

Definition set_pending (p : list PendingImage) (s : State) : State :=
  {| pixels := pixels s; boundingClientRect := boundingClientRect s;
     path := path s; strokeStyle := strokeStyle s; fillStyle := fillStyle s;
     drawing := drawing s; selectedShape := selectedShape s;
     startX := startX s; startY := startY s;
     undoStack := undoStack s; redoStack := redoStack s;
     backgroundColor := backgroundColor s;
     pending := p; downloads := downloads s |}.

Definition set_downloads (d : list Download) (s : State) : State :=
  {| pixels := pixels s; boundingClientRect := boundingClientRect s;
     path := path s; strokeStyle := strokeStyle s; fillStyle := fillStyle s;
     drawing := drawing s; selectedShape := selectedShape s;
     startX := startX s; startY := startY s;
     undoStack := undoStack s; redoStack := redoStack s;
     backgroundColor := backgroundColor s;
     pending := pending s; downloads := d |}.

Local Open Scope result_scope.

(** *** Input capture *)

(** [getCanvasCoordinates(event)].  The parameter is typed
    [MouseEvent | TouchEvent], but two callers pass the global [event]
    through a cast, so the function can receive any event or
    [undefined] ([None]).  Whatever is not a [MouseEvent] goes to the
    [else] branch, where reading [touches[0].clientX] raises when there
    is no such touch. *)
Definition getCanvasCoordinates (event : option Event) (s : State)
  : Result (number * number) :=
  let rect := boundingClientRect s in
  match event with
  | Some (EMouse e) =>
      ret ((clientX e - left rect)%float, (clientY e - top rect)%float)
  | Some (ETouch e) =>
      match touches e with
      | touch :: _ =>
          ret ((touchClientX touch - left rect)%float,
               (touchClientY touch - top rect)%float)
      | [] => throw (TypeError "Cannot read properties of undefined (reading 'clientX')")
      end
  | Some (EKeyboard _) =>
      throw (TypeError "Cannot read properties of undefined (reading '0')")
  | None =>
      throw (TypeError "Cannot read properties of undefined (reading 'touches')")
  end.

(** *** The 2D context *)

Definition beginPath (s : State) : State := set_path [] s.

Definition moveTo (x y : number) (s : State) : State :=
  set_path (path s ++ [MoveTo x y]) s.

Definition lineTo (x y : number) (s : State) : State :=
  set_path (path s ++ [LineTo x y]) s.

Definition rect (x y w h : number) (s : State) : State :=
  set_path (path s ++ [Rect x y w h]) s.

Definition arc (x y radius a0 a1 : number) (s : State) : State :=
  set_path (path s ++ [Arc x y radius a0 a1]) s.

Definition closePath (s : State) : State :=
  set_path (path s ++ [ClosePath]) s.

Definition stroke (s : State) : State :=
  set_pixels (strokePath (strokeStyle s) (path s) (pixels s)) s.

(** *** Shape renderer *)

(** [drawShape(startX, startY, endX, endY)] *)
Definition drawShape (startX startY endX endY : number) (s : State) : State :=
  let s := beginPath s in
  let s :=
    if selectedShape s =? "line" then
      lineTo endX endY (moveTo startX startY s)
    else if selectedShape s =? "rectangle" then
      let width := (endX - startX)%float in
      let height := (endY - startY)%float in
      rect startX startY width height s
    else if selectedShape s =? "circle" then
      let radius :=
        Math_sqrt (Math_pow2 (endX - startX) + Math_pow2 (endY - startY))%float in
      arc startX startY radius 0%float (2 * Math_PI)%float s
    else s in
  stroke s.

(** [stopDrawing()] *)
Definition stopDrawing (s : State) : State :=
  let s := set_drawing false s in
  if selectedShape s =? "freehand" then closePath s else s.

(** [redraw()]: clears at once, and leaves an image to be drawn when it
    has loaded. *)
Definition redraw (s : State) : State :=
  let s := set_pixels
             (clearRect 0%float 0%float canvas_width canvas_height (pixels s)) s in
  match peek (undoStack s) with
  | Some lastState =>
      if truthy lastState
      then set_pending (pending s ++ [RedrawImage lastState]) s
      else s
  | None => s
  end.

(** *** History manager *)

(** [saveState()].  The two [console.log] calls of the history manager
    write to the console only and are left out. *)
Definition saveState (s : State) : State :=
  let s := set_undoStack (push (undoStack s) (toDataURL (pixels s))) s in
  let s := if (10 <? List.length (undoStack s))%nat
           then set_undoStack (shift (undoStack s)) s
           else s in
  set_redoStack [] s.

(** [restoreCanvas(dataUrl)]: nothing is drawn before the image loads. *)
Definition restoreCanvas (dataUrl : string) (s : State) : State :=
  set_pending (pending s ++ [RestoreImage dataUrl]) s.

(** [this.undoStack[this.undoStack.length - 1]] as an argument of type
    [string]: an index out of range reads [undefined], which [img.src]
    turns into the string of that name. *)
Definition topOrUndefined (a : list string) : string :=
  match peek a with
  | Some x => x
  | None => "undefined"
  end.

(** [undoCanvas()] *)
Definition undoCanvas (s : State) : State :=
  if (1 <? List.length (undoStack s))%nat then
    match pop (undoStack s) with
    | (Some popped, rest) =>
        let s := set_undoStack rest s in
        let s := set_redoStack (push (redoStack s) popped) s in
        restoreCanvas (topOrUndefined (undoStack s)) s
    | (None, _) => s
    end
  else s.

(** [redoCanvas()] *)
Definition redoCanvas (s : State) : State :=
  if (0 <? List.length (redoStack s))%nat then
    match pop (redoStack s) with
    | (Some img, rest) =>
        let s := set_redoStack rest s in
        let s := set_undoStack (push (undoStack s) img) s in
        restoreCanvas img s
    | (None, _) => s
    end
  else s.

(** [clearCanvas()] *)
Definition clearCanvas (s : State) : State :=
  let s := set_fillStyle (backgroundColor s) s in
  let s := set_pixels
             (fillRect (fillStyle s) 0%float 0%float canvas_width canvas_height
                (pixels s)) s in
  saveState s.

(** The [onload] callback of an image, run by the browser once the image
    has been decoded. *)
Definition onload (i : PendingImage) (s : State) : State :=
  match i with
  | RedrawImage src =>
      match decodeImage src with
      | Some img => set_pixels (drawImage img 0%float 0%float (pixels s)) s
      | None => s
      end
  | RestoreImage src =>
      match decodeImage src with
      | Some img =>
          let s := set_pixels
                     (clearRect 0%float 0%float canvas_width canvas_height
                        (pixels s)) s in
          set_pixels (drawImage img 0%float 0%float (pixels s)) s
      | None => s
      end
  end.

Fixpoint remove_nth {A} (n : nat) (l : list A) : list A :=
  match n, l with
  | _, [] => []
  | O, _ :: r => r
  | S n, x :: r => x :: remove_nth n r
  end.

(** The browser finishes loading the [n]-th waiting image, in whatever
    order it pleases. *)
Definition imageLoaded (n : nat) (s : State) : State :=
  match nth_error (pending s) n with
  | Some i => onload i (set_pending (remove_nth n (pending s)) s)
  | None => s
  end.

(** All waiting images finish loading, in the order they were created. *)
Definition settle (s : State) : State :=
  fold_left (fun s i => onload i s) (pending s) (set_pending [] s).

(** *** Event handlers *)

(** [onMouseDown(event)] *)
Definition onMouseDown (event : MouseEvent) (s : State) : Result State :=
  '(x, y) <- getCanvasCoordinates (Some (EMouse event)) s ;;
  let s := set_start x y s in
  let s := set_drawing true s in
  ret (if selectedShape s =? "freehand" then moveTo x y (beginPath s) else s).

(** [onMouseMove(event)] *)
Definition onMouseMove (event : MouseEvent) (s : State) : Result State :=
  if drawing s then
    '(x, y) <- getCanvasCoordinates (Some (EMouse event)) s ;;
    ret (if selectedShape s =? "freehand" then stroke (lineTo x y s)
         else drawShape (startX s) (startY s) x y (redraw s))
  else ret s.

(** [onMouseUp()], bound to [mouseup] and [mouseleave].  The method has
    no parameter: the name [event] in its body is the global
    [window.event], here the argument [event]. *)
Definition onMouseUp (event : option Event) (s : State) : Result State :=
  if drawing s then
    '(x, y) <- getCanvasCoordinates event s ;;
    let s := if negb (selectedShape s =? "freehand")
             then drawShape (startX s) (startY s) x y s
             else s in
    let s := stopDrawing s in
    ret (saveState s)
  else ret s.

(** [onTouchStart(event)]; [event.preventDefault()] affects the browser
    only. *)
Definition onTouchStart (event : TouchEvent) (s : State) : Result State :=
  '(x, y) <- getCanvasCoordinates (Some (ETouch event)) s ;;
  let s := set_start x y s in
  let s := set_drawing true s in
  ret (if selectedShape s =? "freehand" then moveTo x y (beginPath s) else s).

(** [onTouchMove(event)] *)
Definition onTouchMove (event : TouchEvent) (s : State) : Result State :=
  if drawing s then
    '(x, y) <- getCanvasCoordinates (Some (ETouch event)) s ;;
    ret (if selectedShape s =? "freehand" then stroke (lineTo x y s)
         else drawShape (startX s) (startY s) x y (redraw s))
  else ret s.

(** [onTouchEnd()], bound to [touchend] and [touchcancel]; [event] is
    the global one, as in [onMouseUp]. *)
Definition onTouchEnd (event : option Event) (s : State) : Result State :=
  if drawing s then
    '(x, y) <- getCanvasCoordinates event s ;;
    let s := if negb (selectedShape s =? "freehand")
             then drawShape (startX s) (startY s) x y s
             else s in
    let s := stopDrawing s in
    ret (saveState s)
  else ret s.

(** *** Toolbar *)

(** [onShapeSelected(shape)] *)
Definition onShapeSelected (shape : string) (s : State) : State :=
  set_selectedShape shape s.

(** [changeColor(color)] *)
Definition changeColor (color : string) (s : State) : State :=
  set_strokeStyle color s.

(** [onBackgroundColorSelected(color)] *)
Definition onBackgroundColorSelected (color : string) (s : State) : State :=
  clearCanvas (set_backgroundColor color s).

(** *** Export *)

Definition BACKGROUND_COLOR : string := "#FFFFFF".

(** The pixels of [tempCanvas] when [downloadCanvas] encodes it. *)
Definition exported (s : State) : Raster :=
  (* [document.createElement('canvas')], then its size is set *)
  let tempCanvas := blank in
  let tempCanvas :=
    fillRect BACKGROUND_COLOR 0%float 0%float canvas_width canvas_height
      tempCanvas in
  drawImage (pixels s) 0%float 0%float tempCanvas.

(** [downloadCanvas()] *)
Definition downloadCanvas (s : State) : State :=
  let link := {| download := "sketchy.png"; href := toDataURL (exported s) |} in
  set_downloads (downloads s ++ [link]) s.

(** *** Keyboard *)

(** [handleKeyboardEvent(event)]; [event.preventDefault()] affects the
    browser only. *)
Definition handleKeyboardEvent (event : KeyboardEvent) (s : State) : State :=
  if ctrlKey event && negb (shiftKey event) && (toLowerCase (key event) =? "z")
  then undoCanvas s
  else if (ctrlKey event && (toLowerCase (key event) =? "y"))
          || (ctrlKey event && shiftKey event && (toLowerCase (key event) =? "z"))
  then redoCanvas s
  else if (key event =? "Delete") || (key event =? "Backspace")
  then clearCanvas s
  else s.

(** *** Initialisation *)

(** The component once constructed: the field initialisers of the class,
    around a canvas nothing has drawn on and a context in its default
    state. *)
Definition constructed (bounds : DOMRect) : State :=
  {| pixels := blank; boundingClientRect := bounds;
     path := []; strokeStyle := "#000000"; fillStyle := "#000000";
     drawing := false; selectedShape := "freehand";
     startX := 0%float; startY := 0%float;
     undoStack := []; redoStack := [];
     backgroundColor := "#ffffff";
     pending := []; downloads := [] |}.

(** [initializeCanvas()]; [context] tells whether [getContext('2d')]
    gave a context. *)
Definition initializeCanvas (context : bool) (s : State) : Result State :=
  if context then ret (clearCanvas s)
  else throw (Error "Unable to get 2D context").

(** [ngOnInit()] *)
Definition ngOnInit (context : bool) (s : State) : Result State :=
  initializeCanvas context s.

(** *** The component as a transition system *)

(** Whatever can happen to an initialised component: a DOM event reaches
    a listener, the toolbar calls a public method, an image finishes
    loading, the page lays the canvas out elsewhere. *)
Inductive Action : Type :=
| MouseDown (e : MouseEvent)
| MouseMove (e : MouseEvent)
| MouseUp (e : option Event)
| MouseLeave (e : option Event)
| TouchStart (e : TouchEvent)
| TouchMove (e : TouchEvent)
| TouchEnd (e : option Event)
| TouchCancel (e : option Event)
| KeyDown (e : KeyboardEvent)
| ShapeSelected (shape : string)
| ChangeColor (color : string)
| BackgroundColorSelected (color : string)
| ClearCanvas
| UndoCanvas
| RedoCanvas
| DownloadCanvas
| ImageLoaded (n : nat)
| Layout (bounds : DOMRect).

Definition set_boundingClientRect (b : DOMRect) (s : State) : State :=
  {| pixels := pixels s; boundingClientRect := b;
     path := path s; strokeStyle := strokeStyle s; fillStyle := fillStyle s;
     drawing := drawing s; selectedShape := selectedShape s;
     startX := startX s; startY := startY s;
     undoStack := undoStack s; redoStack := redoStack s;
     backgroundColor := backgroundColor s;
     pending := pending s; downloads := downloads s |}.

Definition step (a : Action) (s : State) : Result State :=
  match a with
  | MouseDown e => onMouseDown e s
  | MouseMove e => onMouseMove e s
  | MouseUp e | MouseLeave e => onMouseUp e s
  | TouchStart e => onTouchStart e s
  | TouchMove e => onTouchMove e s
  | TouchEnd e | TouchCancel e => onTouchEnd e s
  | KeyDown e => ret (handleKeyboardEvent e s)
  | ShapeSelected shape => ret (onShapeSelected shape s)
  | ChangeColor color => ret (changeColor color s)
  | BackgroundColorSelected color => ret (onBackgroundColorSelected color s)
  | ClearCanvas => ret (clearCanvas s)
  | UndoCanvas => ret (undoCanvas s)
  | RedoCanvas => ret (redoCanvas s)
  | DownloadCanvas => ret (downloadCanvas s)
  | ImageLoaded n => ret (imageLoaded n s)
  | Layout b => ret (set_boundingClientRect b s)
  end.

(** A handler that raises has changed nothing before it does: in every
    handler the only call that can raise, [getCanvasCoordinates], comes
    before the first assignment. *)
Definition after (a : Action) (s : State) : State :=
  match step a s with
  | inr s' => s'
  | inl _ => s
  end.

Fixpoint run (l : list Action) (s : State) : State :=
  match l with
  | [] => s
  | a :: l => run l (after a s)
  end.

(** The states of an initialised component. *)
Inductive reachable : State -> Prop :=
| reachable_init bounds s :
    ngOnInit true (constructed bounds) = inr s -> reachable s
| reachable_step a s :
    reachable s -> reachable (after a s).

End Component.

(** ** The vocabulary of the properties *)

Section Vocabulary.
Context {browser : Surface}.
Implicit Types (s : State).

(** The top of the undo stack encodes the canvas as it is. *)
Definition committed s : Prop :=
  peek (undoStack s) = Some (toDataURL (pixels s)).

(** The bounds on the two stacks. *)
Definition bounded s : Prop :=
  1 <= List.length (undoStack s)
  /\ List.length (undoStack s) + List.length (redoStack s) <= 10.

(** Whether an action, taken from [s], reaches [saveState]: a release
    while drawing, a clear (by the toolbar or by the Delete and Backspace
    keys), a new background colour. *)
Definition commits (a : Action) s : bool :=
  match a with
  | MouseUp _ | MouseLeave _ | TouchEnd _ | TouchCancel _ => drawing s
  | KeyDown e => (key e =? "Delete") || (key e =? "Backspace")
  | BackgroundColorSelected _ | ClearCanvas => true
  | _ => false
  end.

Definition same_stacks s s' : Prop :=
  undoStack s' = undoStack s /\ redoStack s' = redoStack s.

(** The property of the release handlers under examination: the shape
    they commit ends where the last move event of the session was. *)
Definition release_commits_last_move : Prop :=
  forall s (move : MouseEvent) (event : option Event) s1 s2,
    drawing s = true ->
    (selectedShape s =? "freehand") = false ->
    onMouseMove move s = inr s1 ->
    onMouseUp event s1 = inr s2 ->
    exists x y,
      getCanvasCoordinates (Some (EMouse move)) s = inr (x, y)
      /\ s2 = saveState
                (stopDrawing (drawShape (startX s1) (startY s1) x y s1)).

End Vocabulary.

(** The Euclidean distance from [(sx, sy)] to [(ex, ey)], computed in
    binary64: the root of the sum of the squared differences. *)
Definition distance (sx sy ex ey : number) : number :=
  PrimFloat.sqrt ((ex - sx) * (ex - sx) + (ey - sy) * (ey - sy))%float.

(** ** A surface to run the component on

    A bitmap is described by the text of what was painted on it since it
    was last blank or filled whole, and by whether it is covered by opaque
    paint.  The description forgets coordinates; it is enough to run the
    component on concrete inputs and tell its canvases apart. *)

Module Sketch.

Record Bitmap : Type := {
  covered : bool;
  paint : string
}.

(** The size of a canvas element without [width] and [height]. *)
Definition W : number := 300%float.
Definition H : number := 150%float.

Definition whole (x y w h : number) : bool :=
  (PrimFloat.eqb x 0 && PrimFloat.eqb y 0
   && PrimFloat.eqb w W && PrimFloat.eqb h H)%bool.

Definition segment (c : PathCmd) : string :=
  match c with
  | MoveTo _ _ => "M"
  | LineTo _ _ => "L"
  | Rect _ _ _ _ => "R"
  | Arc _ _ _ _ _ => "A"
  | ClosePath => "Z"
  end.

Definition describe (p : Path) : string :=
  String.concat "" (map segment p).

Definition clear (x y w h : number) (b : Bitmap) : Bitmap :=
  if whole x y w h then {| covered := false; paint := "" |}
  else {| covered := false; paint := paint b ++ "clear;" |}.

Definition fill (c : string) (x y w h : number) (b : Bitmap) : Bitmap :=
  if (whole x y w h && opaque_color c)%bool
  then {| covered := true; paint := "fill " ++ c ++ ";" |}
  else {| covered := covered b; paint := paint b ++ "fill " ++ c ++ ";" |}.

Definition strokeOn (c : string) (p : Path) (b : Bitmap) : Bitmap :=
  {| covered := covered b;
     paint := paint b ++ "stroke " ++ c ++ " " ++ describe p ++ ";" |}.

Definition draw (img : Bitmap) (x y : number) (b : Bitmap) : Bitmap :=
  if (PrimFloat.eqb x 0 && PrimFloat.eqb y 0 && (paint b =? ""))%bool
  then {| covered := (covered b || covered img)%bool; paint := paint img |}
  else {| covered := covered b;
          paint := paint b ++ "image{" ++ paint img ++ "};" |}.

Definition encode (b : Bitmap) : string :=
  "data:image/png," ++ String (if covered b then "o" else "t")%char (paint b).

Fixpoint after_prefix (p s : string) : option string :=
  match p, s with
  | EmptyString, _ => Some s
  | String a p, String b s => if Ascii.eqb a b then after_prefix p s else None
  | String _ _, EmptyString => None
  end.

Definition decode (url : string) : option Bitmap :=
  match after_prefix "data:image/png," url with
  | Some (String "o" d) => Some {| covered := true; paint := d |}
  | Some (String "t" d) => Some {| covered := false; paint := d |}
  | _ => None
  end.

Lemma decode_encode (b : Bitmap) : decode (encode b) = Some b.
Proof. destruct b as [[|] d]; reflexivity. Qed.

Lemma draw_clear (img b : Bitmap) : draw img 0%float 0%float (clear 0%float 0%float W H b) = img.
Proof. destruct img; reflexivity. Qed.

Lemma fill_covered (c : string) (b : Bitmap) :
  opaque_color c = true -> covered (fill c 0%float 0%float W H b) = true.
Proof.
  intros Hc. unfold fill.
  replace (whole 0%float 0%float W H) with true by reflexivity.
  rewrite Hc. reflexivity.
Qed.

Lemma draw_covered (img : Bitmap) (x y : number) (b : Bitmap) :
  covered b = true -> covered (draw img x y b) = true.
Proof.
  intros Hb. unfold draw.
  destruct (PrimFloat.eqb x 0 && PrimFloat.eqb y 0 && (paint b =? ""))%bool;
    cbn; rewrite Hb; reflexivity.
Qed.

Definition surface : Surface :=
  {| Raster := Bitmap;
     canvas_width := W;
     canvas_height := H;
     blank := {| covered := false; paint := "" |};
     clearRect := clear;
     fillRect := fill;
     strokePath := strokeOn;
     drawImage := draw;
     toDataURL := encode;
     decodeImage := decode;
     opaque := covered;
     decode_toDataURL := decode_encode;
     drawImage_cleared := draw_clear;
     fillRect_opaque := fill_covered;
     drawImage_opaque := draw_covered |}.

(** The component, freshly initialised, with its canvas at the origin of
    the viewport. *)
Definition origin : DOMRect := {| left := 0%float; top := 0%float |}.

Definition initial : @State surface :=
  @clearCanvas surface (@constructed surface origin).

End Sketch.

(** ** Scenarios

    States of the component on the surface [Sketch.surface], reached from
    the state [Sketch.initial] that [ngOnInit] leaves. *)

Section Scenarios.
#[local] Existing Instance Sketch.surface.
Local Open Scope float_scope.

(** A mouse event at a client position. *)
Definition mouseAt (x y : number) : MouseEvent :=
  {| clientX := x; clientY := y |}.

(** A freehand stroke under way: pressed at (5,5), moved to (10,10), not
    released. *)
Definition mid_stroke : State :=
  run [MouseDown (mouseAt 5 5); MouseMove (mouseAt 10 10)] Sketch.initial.

(** A line under way: the line tool chosen, pressed at (0,0), moved to
    (10,10), not released. *)
Definition dragging_line : State :=
  run [ShapeSelected "line"; MouseDown (mouseAt 0 0); MouseMove (mouseAt 10 10)]
    Sketch.initial.

(** Where a path of two segments ends, when it ends with a line. *)
Definition lineEnd (p : Path) : option (number * number) :=
  match p with
  | [_; LineTo x y] => Some (x, y)
  | _ => None
  end.

Definition sameEnd (p q : Path) : bool :=
  match lineEnd p, lineEnd q with
  | Some (x, y), Some (x', y') => PrimFloat.eqb x x' && PrimFloat.eqb y y'
  | _, _ => false
  end.

End Scenarios.

(** ** More vocabulary *)

Section History.
Context {browser : Surface}.
Implicit Types (s : State).

(** Whether [getCanvasCoordinates] can read a position off an event: a
    mouse event, or a touch event with a touch in its list. *)
Definition readable (event : option Event) : bool :=
  match event with
  | Some (EMouse _) => true
  | Some (ETouch e) =>
      match touches e with
      | [] => false
      | _ :: _ => true
      end
  | Some (EKeyboard _) => false
  | None => false
  end.

(** The actions whose listener raises, from [s]. *)
Definition raises (a : Action) s : bool :=
  match a with
  | MouseUp event | MouseLeave event | TouchEnd event | TouchCancel event =>
      drawing s && negb (readable event)
  | TouchMove e => drawing s && negb (readable (Some (ETouch e)))
  | TouchStart e => negb (readable (Some (ETouch e)))
  | _ => false
  end.

(** The history as one line of snapshots: what can be undone, oldest
    first, then what can be redone, next first. *)
Definition timeline s : list string :=
  undoStack s ++ rev (redoStack s).

(** Every entry of the two stacks is the encoding of some canvas. *)
Definition encoded s : Prop :=
  Forall (fun url => exists r, url = toDataURL r) (undoStack s ++ redoStack s).

(** The stroke colour, the background colour, the tool and the files
    downloaded. *)
Definition settings s : string * string * string * list Download :=
  (strokeStyle s, backgroundColor s, selectedShape s, downloads s).

End History.

(** * Properties *)

(** ** The array methods *)

Section ArrayFacts.
Context {A : Type}.
Implicit Types (a : list A) (x : A).

Lemma length_push a x : List.length (push a x) = S (List.length a).
Proof. unfold push. rewrite length_app. cbn. lia. Qed.

Lemma length_shift a : List.length (shift a) = pred (List.length a).
Proof. destruct a; reflexivity. Qed.

Lemma pop_push a x : pop (push a x) = (Some x, a).
Proof.
  unfold pop, push. destruct a as [|y a]; [reflexivity|].
  cbn [app]. f_equal.
  - f_equal. apply last_last.
  - exact (removelast_last (y :: a) x).
Qed.

Lemma peek_push a x : peek (push a x) = Some x.
Proof.
  unfold peek, push. destruct a as [|y a]; [reflexivity|].
  cbn [app]. f_equal. apply last_last.
Qed.

Lemma peek_pop a : peek a = fst (pop a).
Proof. destruct a; reflexivity. Qed.

(** Popping a non-empty array splits it into its front and its last
    element. *)
Lemma pop_nonempty a :
  a <> [] -> exists x front, pop a = (Some x, front) /\ a = front ++ [x].
Proof.
  intros Ha. destruct (exists_last Ha) as (front & x & ->).
  exists x, front. split; [apply pop_push | reflexivity].
Qed.

(** Shifting after a push keeps the pushed element on top, unless the
    push was onto an empty array. *)
Lemma shift_push a x : a <> [] -> shift (push a x) = push (shift a) x.
Proof. destruct a; [congruence | reflexivity]. Qed.

End ArrayFacts.

(** Reading a field of an updated state. *)
Ltac fields :=
  cbn [pixels boundingClientRect path strokeStyle fillStyle drawing
       selectedShape startX startY undoStack redoStack backgroundColor
       pending downloads
       set_pixels set_path set_strokeStyle set_fillStyle set_drawing
       set_selectedShape set_start set_undoStack set_redoStack
       set_backgroundColor set_pending set_downloads
       set_boundingClientRect] in *.

(** ** The history manager *)

Section HistoryManager.
Context {browser : Surface}.
Implicit Types (s : State).

Lemma saveState_undoStack s :
  undoStack (saveState s) =
    let pushed := push (undoStack s) (toDataURL (pixels s)) in
    if (10 <? List.length pushed)%nat then shift pushed else pushed.
Proof.
  unfold saveState. fields.
  destruct (10 <? List.length (push (undoStack s) (toDataURL (pixels s))))%nat;
    reflexivity.
Qed.

Lemma saveState_redoStack s : redoStack (saveState s) = [].
Proof. reflexivity. Qed.

Lemma saveState_pixels s : pixels (saveState s) = pixels s.
Proof.
  unfold saveState. fields.
  destruct (10 <? List.length (push (undoStack s) (toDataURL (pixels s))))%nat;
    reflexivity.
Qed.

Lemma saveState_pending s : pending (saveState s) = pending s.
Proof.
  unfold saveState. fields.
  destruct (10 <? List.length (push (undoStack s) (toDataURL (pixels s))))%nat;
    reflexivity.
Qed.

Lemma saveState_length s :
  List.length (undoStack s) <= 10 ->
  1 <= List.length (undoStack (saveState s)) <= 10.
Proof.
  intros Hs. rewrite saveState_undoStack. cbv zeta.
  destruct (Nat.ltb_spec 10 (List.length (push (undoStack s) (toDataURL (pixels s)))))
    as [Hlt|Hge].
  - rewrite length_shift. rewrite length_push in *. lia.
  - rewrite length_push in *. lia.
Qed.

Lemma saveState_peek s :
  peek (undoStack (saveState s)) = Some (toDataURL (pixels s)).
Proof.
  rewrite saveState_undoStack. cbv zeta.
  destruct (Nat.ltb_spec 10 (List.length (push (undoStack s) (toDataURL (pixels s)))))
    as [Hlt|Hge].
  - rewrite shift_push.
    + apply peek_push.
    + rewrite length_push in Hlt. destruct (undoStack s); [cbn in Hlt; lia | discriminate].
  - apply peek_push.
Qed.

Lemma saveState_committed s : committed (saveState s).
Proof. unfold committed. rewrite saveState_peek, saveState_pixels. reflexivity. Qed.

Lemma saveState_bounded s :
  List.length (undoStack s) <= 10 -> bounded (saveState s).
Proof.
  intros Hs. unfold bounded. rewrite saveState_redoStack.
  pose proof (saveState_length s Hs). cbn [List.length]. lia.
Qed.

(** C1.  [saveState] pushes the encoding of the canvas on the undo stack;
    when that makes more than 10 entries it drops the first one, the
    oldest, and only that one; a stack of at most 10 entries stays so;
    the redo stack is left empty.  The canvas itself is not touched. *)
Theorem saveState_spec s :
  let snapshot := toDataURL (pixels s) in
  (List.length (undoStack s) < 10 ->
     undoStack (saveState s) = undoStack s ++ [snapshot])
  /\ (10 <= List.length (undoStack s) ->
      exists oldest rest,
        undoStack s = oldest :: rest
        /\ undoStack (saveState s) = rest ++ [snapshot])
  /\ (List.length (undoStack s) <= 10 ->
      List.length (undoStack (saveState s)) <= 10)
  /\ redoStack (saveState s) = []
  /\ pixels (saveState s) = pixels s.
Proof.
  cbv zeta. repeat split.
  - intros Hlt. rewrite saveState_undoStack. cbv zeta.
    rewrite length_push.
    destruct (Nat.ltb_spec 10 (S (List.length (undoStack s)))); [lia | reflexivity].
  - intros Hge. rewrite saveState_undoStack. cbv zeta.
    rewrite length_push.
    destruct (Nat.ltb_spec 10 (S (List.length (undoStack s)))); [| lia].
    destruct (undoStack s) as [|oldest rest]; [cbn in Hge; lia |].
    exists oldest, rest. split; reflexivity.
  - intros Hle. apply saveState_length, Hle.
  - apply saveState_pixels.
Qed.

(** After a snapshot onto a stack that was not empty, the stack ends with
    what was its top, then the snapshot. *)
Lemma saveState_two_on_top s :
  undoStack s <> [] ->
  exists front below,
    peek (undoStack s) = Some below
    /\ undoStack (saveState s) = front ++ [below; toDataURL (pixels s)].
Proof.
  intros Hne. destruct (exists_last Hne) as (front & below & Hu).
  rewrite saveState_undoStack, Hu. cbv zeta. unfold push.
  rewrite <- app_assoc. cbn [app].
  destruct (10 <? _)%nat eqn:Hfull.
  - destruct front as [|oldest front].
    + cbn in Hfull. discriminate.
    + exists front, below. split; [apply (peek_push (oldest :: front)) | reflexivity].
  - exists front, below. split; [apply peek_push | reflexivity].
Qed.

(** [undoCanvas] on a stack of two entries or more. *)
Lemma undoCanvas_pops s front below x :
  undoStack s = front ++ [below; x] ->
  undoCanvas s =
    set_pending (pending s ++ [RestoreImage below])
      (set_redoStack (redoStack s ++ [x])
         (set_undoStack (front ++ [below]) s)).
Proof.
  intros Hu. unfold undoCanvas. rewrite Hu.
  replace (1 <? List.length (front ++ [below; x]))%nat with true
    by (symmetry; apply Nat.ltb_lt; rewrite length_app; cbn; lia).
  replace (front ++ [below; x]) with (push (push front below) x)
    by (unfold push; rewrite <- app_assoc; reflexivity).
  rewrite pop_push. unfold restoreCanvas, topOrUndefined. fields.
  rewrite peek_push. reflexivity.
Qed.

(** [redoCanvas] on a redo stack that is not empty. *)
Lemma redoCanvas_pops s front x :
  redoStack s = front ++ [x] ->
  redoCanvas s =
    set_pending (pending s ++ [RestoreImage x])
      (set_undoStack (undoStack s ++ [x])
         (set_redoStack front s)).
Proof.
  intros Hr. unfold redoCanvas. rewrite Hr.
  replace (0 <? List.length (front ++ [x]))%nat with true
    by (symmetry; apply Nat.ltb_lt; rewrite length_app; cbn; lia).
  change (front ++ [x]) with (push front x).
  rewrite pop_push. reflexivity.
Qed.

Lemma undoCanvas_floor s :
  List.length (undoStack s) <= 1 -> undoCanvas s = s.
Proof.
  intros Hs. unfold undoCanvas.
  destruct (Nat.ltb_spec 1 (List.length (undoStack s))); [lia | reflexivity].
Qed.

Lemma redoCanvas_empty s : redoStack s = [] -> redoCanvas s = s.
Proof. intros Hs. unfold redoCanvas. rewrite Hs. reflexivity. Qed.

Lemma two_on_top (l : list string) :
  1 < List.length l -> exists front below x, l = front ++ [below; x].
Proof.
  intros Hl.
  assert (Hne : l <> []) by (destruct l; [cbn in Hl; lia | discriminate]).
  destruct (exists_last Hne) as (l' & x & ->).
  rewrite length_app in Hl. cbn in Hl.
  assert (Hne' : l' <> []) by (destruct l'; [cbn in Hl; lia | discriminate]).
  destruct (exists_last Hne') as (front & below & ->).
  exists front, below, x. rewrite <- app_assoc. reflexivity.
Qed.

(** An undo that does something, then a redo: both stacks are as they
    were, and two images wait to be restored, the later one being the
    entry that went to the redo stack and back. *)
Lemma undo_redo s front below x :
  undoStack s = front ++ [below; x] ->
  redoCanvas (undoCanvas s) =
    set_pending (pending s ++ [RestoreImage below; RestoreImage x]) s.
Proof.
  intros Hu. rewrite (undoCanvas_pops s front below x Hu).
  erewrite redoCanvas_pops by (fields; reflexivity).
  destruct s. fields. subst. repeat rewrite <- app_assoc. reflexivity.
Qed.

(** Restoring a snapshot of a canvas, once the image has loaded, gives
    that canvas, whatever was restored or redrawn before. *)
Lemma settle_restore s waiting (r : Raster) :
  pending s = waiting ++ [RestoreImage (toDataURL r)] ->
  pixels (settle s) = r.
Proof.
  intros Hp. unfold settle. rewrite Hp, fold_left_app. cbn [fold_left].
  unfold onload at 1. rewrite decode_toDataURL. fields.
  apply drawImage_cleared.
Qed.

(** *** What each action does to the stacks *)

Ltac branches :=
  repeat match goal with
    | |- context [if ?b then _ else _] => destruct b
    | |- context [match peek ?l with _ => _ end] => destruct (peek l)
    | |- context [match decodeImage ?u with _ => _ end] => destruct (decodeImage u)
    end.

Lemma drawShape_stacks x0 y0 x1 y1 s : same_stacks s (drawShape x0 y0 x1 y1 s).
Proof. unfold drawShape, stroke, beginPath. fields. branches; split; reflexivity. Qed.

Lemma stopDrawing_stacks s : same_stacks s (stopDrawing s).
Proof. unfold stopDrawing. fields. branches; split; reflexivity. Qed.

Lemma redraw_stacks s : same_stacks s (redraw s).
Proof. unfold redraw. fields. branches; split; reflexivity. Qed.

Lemma onload_stacks i s : same_stacks s (onload i s).
Proof. destruct i; unfold onload; branches; split; reflexivity. Qed.

Lemma imageLoaded_stacks n s : same_stacks s (imageLoaded n s).
Proof.
  unfold imageLoaded. destruct (nth_error (pending s) n) as [i|].
  - destruct (onload_stacks i (set_pending (remove_nth n (pending s)) s)).
    split; assumption.
  - split; reflexivity.
Qed.

Lemma same_stacks_trans s1 s2 s3 :
  same_stacks s1 s2 -> same_stacks s2 s3 -> same_stacks s1 s3.
Proof. intros [? ?] [? ?]. split; congruence. Qed.

(** A release while drawing ends in [saveState], called on a state with
    the stacks of the start. *)
Lemma onMouseUp_drawing event s s' :
  drawing s = true -> onMouseUp event s = inr s' ->
  exists x y,
    getCanvasCoordinates event s = inr (x, y)
    /\ s' = saveState
              (stopDrawing
                 (if negb (selectedShape s =? "freehand")
                  then drawShape (startX s) (startY s) x y s else s)).
Proof.
  intros Hd Hr. unfold onMouseUp in Hr. rewrite Hd in Hr.
  destruct (getCanvasCoordinates event s) as [e|[x y]]; [discriminate|].
  cbn in Hr. injection Hr as <-. exists x, y. split; reflexivity.
Qed.

Lemma onTouchEnd_onMouseUp event s : onTouchEnd event s = onMouseUp event s.
Proof. reflexivity. Qed.

Lemma release_stacks x y s :
  same_stacks s
    (stopDrawing
       (if negb (selectedShape s =? "freehand")
        then drawShape (startX s) (startY s) x y s else s)).
Proof.
  eapply same_stacks_trans; [| apply stopDrawing_stacks].
  destruct (negb _); [apply drawShape_stacks | split; reflexivity].
Qed.

Lemma clearCanvas_saveState s :
  exists t, same_stacks s t /\ clearCanvas s = saveState t.
Proof. eexists. split; [| reflexivity]. split; reflexivity. Qed.

Lemma handleKeyboardEvent_clear e s :
  (key e =? "Delete") || (key e =? "Backspace") = true ->
  handleKeyboardEvent e s = clearCanvas s.
Proof.
  intros Hk. unfold handleKeyboardEvent. rewrite Hk.
  apply orb_true_iff in Hk.
  destruct Hk as [Hk|Hk]; apply String.eqb_eq in Hk; rewrite Hk; cbn;
    rewrite ?andb_false_r; reflexivity.
Qed.

Lemma handleKeyboardEvent_other e s :
  (key e =? "Delete") || (key e =? "Backspace") = false ->
  handleKeyboardEvent e s = s
  \/ handleKeyboardEvent e s = undoCanvas s
  \/ handleKeyboardEvent e s = redoCanvas s.
Proof.
  intros Hk. unfold handleKeyboardEvent. rewrite Hk.
  branches; auto.
Qed.

(** Every action either ends in [saveState], or is an undo, or is a redo,
    or leaves both stacks alone. *)
Lemma step_stacks a s s' :
  step a s = inr s' ->
  if commits a s
  then exists t, same_stacks s t /\ s' = saveState t
  else same_stacks s s' \/ s' = undoCanvas s \/ s' = redoCanvas s.
Proof.
  intros Hstep.
  assert (Hrelease : forall event, onMouseUp event s = inr s' ->
    if drawing s
    then exists t, same_stacks s t /\ s' = saveState t
    else same_stacks s s' \/ s' = undoCanvas s \/ s' = redoCanvas s).
  { intros event Hr. destruct (drawing s) eqn:Hd.
    - destruct (onMouseUp_drawing event s s' Hd Hr) as (x & y & _ & ->).
      eexists. split; [apply release_stacks | reflexivity].
    - unfold onMouseUp in Hr. rewrite Hd in Hr. injection Hr as <-.
      left. split; reflexivity. }
  destruct a; cbn [step commits] in *;
    try (apply (Hrelease _ Hstep)).
  - (* mousedown *)
    unfold onMouseDown in Hstep. cbn in Hstep. injection Hstep as <-.
    left. fields. branches; split; reflexivity.
  - (* mousemove *)
    unfold onMouseMove in Hstep. destruct (drawing s).
    + cbn in Hstep. injection Hstep as <-. left.
      destruct (selectedShape s =? "freehand").
      * split; reflexivity.
      * eapply same_stacks_trans; [apply redraw_stacks | apply drawShape_stacks].
    + injection Hstep as <-. left. split; reflexivity.
  - (* touchstart *)
    unfold onTouchStart in Hstep.
    destruct (getCanvasCoordinates (Some (ETouch e)) s) as [err|[x y]];
      [discriminate|].
    cbn in Hstep. injection Hstep as <-.
    left. fields. branches; split; reflexivity.
  - (* touchmove *)
    unfold onTouchMove in Hstep. destruct (drawing s).
    + destruct (getCanvasCoordinates (Some (ETouch e)) s) as [err|[x y]];
        [discriminate|].
      cbn in Hstep. injection Hstep as <-. left.
      destruct (selectedShape s =? "freehand").
      * split; reflexivity.
      * eapply same_stacks_trans; [apply redraw_stacks | apply drawShape_stacks].
    + injection Hstep as <-. left. split; reflexivity.
  - (* keydown *)
    injection Hstep as <-.
    destruct ((key e =? "Delete") || (key e =? "Backspace")) eqn:Hk.
    + rewrite (handleKeyboardEvent_clear e s Hk). apply clearCanvas_saveState.
    + destruct (handleKeyboardEvent_other e s Hk) as [-> | [-> | ->]]; auto.
      left. split; reflexivity.
  - injection Hstep as <-. left. split; reflexivity.
  - injection Hstep as <-. left. split; reflexivity.
  - (* background colour *)
    injection Hstep as <-.
    eexists. split; [| reflexivity]. split; reflexivity.
  - injection Hstep as <-. apply clearCanvas_saveState.
  - injection Hstep as <-. auto.
  - injection Hstep as <-. auto.
  - injection Hstep as <-. left. split; reflexivity.
  - injection Hstep as <-. left. apply imageLoaded_stacks.
  - injection Hstep as <-. left. split; reflexivity.
Qed.

Lemma committed_nonempty s : committed s -> undoStack s <> [].
Proof. unfold committed. destruct (undoStack s); [discriminate | discriminate]. Qed.

(** C2.  When [saveState] returns, and so when any action that reaches it
    returns (a release that ends a drawing session, [clearCanvas], the
    Delete and Backspace keys, [onBackgroundColorSelected]), the undo
    stack is not empty and its last entry is the encoding of the canvas
    as it is at that moment. *)
Theorem committed_after_commit s :
  (undoStack (saveState s) <> [] /\ committed (saveState s))
  /\ (undoStack (clearCanvas s) <> [] /\ committed (clearCanvas s))
  /\ (forall color,
        undoStack (onBackgroundColorSelected color s) <> []
        /\ committed (onBackgroundColorSelected color s))
  /\ (forall a s',
        commits a s = true -> step a s = inr s' ->
        undoStack s' <> [] /\ committed s').
Proof.
  assert (Hsave : forall t, undoStack (saveState t) <> [] /\ committed (saveState t)).
  { intros t. split; [apply committed_nonempty|]; apply saveState_committed. }
  split; [apply Hsave|]. split; [apply Hsave|].
  split; [intros color; apply Hsave|].
  intros a s' Hc Hstep. apply step_stacks in Hstep. rewrite Hc in Hstep.
  destruct Hstep as (t & _ & ->). apply Hsave.
Qed.

(** C3.  [undoCanvas] with at most one entry on the undo stack, and
    [redoCanvas] with an empty redo stack, return the state they were
    given: the stacks, the canvas and the images waiting to be drawn on
    it are the same, and nothing is raised. *)
Theorem undo_redo_noop s :
  (List.length (undoStack s) <= 1 ->
     undoCanvas s = s /\ step UndoCanvas s = inr s)
  /\ (List.length (redoStack s) = 0 ->
      redoCanvas s = s /\ step RedoCanvas s = inr s).
Proof.
  split.
  - intros Hs. cbn [step]. rewrite (undoCanvas_floor s Hs). split; reflexivity.
  - intros Hs. apply length_zero_iff_nil in Hs.
    cbn [step]. rewrite (redoCanvas_empty s Hs). split; reflexivity.
Qed.

Lemma clearCanvas_unfold s :
  clearCanvas s =
    saveState
      (set_pixels
         (fillRect (backgroundColor s) 0%float 0%float canvas_width canvas_height
            (pixels s))
         (set_fillStyle (backgroundColor s) s)).
Proof. reflexivity. Qed.

(** What [clearCanvas(); undoCanvas()] asks to be restored: the entry
    that was on top of the undo stack before the clear. *)
Lemma clear_undo_pending s below :
  peek (undoStack s) = Some below ->
  pending (undoCanvas (clearCanvas s)) = pending s ++ [RestoreImage below].
Proof.
  intros Htop. rewrite clearCanvas_unfold.
  set (t := set_pixels _ _).
  assert (Hne : undoStack t <> []).
  { subst t. fields. destruct (undoStack s); [discriminate Htop | discriminate]. }
  destruct (saveState_two_on_top t Hne) as (front & below' & Htop' & Hu).
  assert (below' = below) as -> by (subst t; fields; congruence).
  rewrite (undoCanvas_pops _ _ _ _ Hu). fields.
  rewrite saveState_pending. reflexivity.
Qed.

(** C5, as the code has it.  From a state whose undo stack has on top the
    encoding of the canvas as it is (the state any committed action
    leaves), [clearCanvas(); undoCanvas()] asks for that entry to be
    restored, and once the waiting images have loaded, in the order they
    were requested, the canvas is the canvas from before the clear. *)
Theorem clear_undo_restores s :
  committed s ->
  pending (undoCanvas (clearCanvas s))
    = pending s ++ [RestoreImage (toDataURL (pixels s))]
  /\ pixels (settle (undoCanvas (clearCanvas s))) = pixels s.
Proof.
  intros Hs. pose proof (clear_undo_pending s _ Hs) as Hp.
  split; [exact Hp|]. apply (settle_restore _ (pending s)), Hp.
Qed.

(** *** The bounds on the stacks *)

Lemma same_stacks_bounded s s' : same_stacks s s' -> bounded s -> bounded s'.
Proof. unfold bounded. intros [-> ->]. tauto. Qed.

Lemma undoCanvas_bounded s : bounded s -> bounded (undoCanvas s).
Proof.
  intros [Hlow Hsum].
  destruct (Nat.le_gt_cases (List.length (undoStack s)) 1) as [Hle|Hgt].
  - rewrite undoCanvas_floor by exact Hle. split; assumption.
  - destruct (two_on_top _ Hgt) as (front & below & x & Hu).
    rewrite (undoCanvas_pops _ _ _ _ Hu). unfold bounded. fields.
    rewrite Hu in Hsum. rewrite !length_app in *. cbn [List.length] in *. lia.
Qed.

Lemma redoCanvas_bounded s : bounded s -> bounded (redoCanvas s).
Proof.
  intros [Hlow Hsum].
  destruct (redoStack s) as [|y r] eqn:Hr.
  - rewrite redoCanvas_empty by exact Hr. unfold bounded. rewrite Hr.
    split; assumption.
  - assert (Hne : redoStack s <> []) by (rewrite Hr; discriminate).
    destruct (exists_last Hne) as (front & x & Hr').
    rewrite (redoCanvas_pops _ _ _ Hr'). unfold bounded. fields.
    rewrite Hr' in Hr. rewrite <- Hr in Hsum.
    rewrite !length_app in *. cbn [List.length] in *. lia.
Qed.

Lemma step_bounded a s s' : bounded s -> step a s = inr s' -> bounded s'.
Proof.
  intros Hs Hstep. apply step_stacks in Hstep.
  destruct (commits a s).
  - destruct Hstep as (t & [Hu _] & ->). apply saveState_bounded.
    rewrite Hu. destruct Hs. lia.
  - destruct Hstep as [Hsame | [-> | ->]].
    + apply (same_stacks_bounded s); assumption.
    + apply undoCanvas_bounded, Hs.
    + apply redoCanvas_bounded, Hs.
Qed.

Lemma after_bounded a s : bounded s -> bounded (after a s).
Proof.
  intros Hs. unfold after. destruct (step a s) as [e|s'] eqn:Hstep.
  - exact Hs.
  - apply (step_bounded a s); assumption.
Qed.

Lemma ngOnInit_bounded context bounds s :
  ngOnInit context (constructed bounds) = inr s -> bounded s.
Proof.
  unfold ngOnInit, initializeCanvas. destruct context; [|discriminate].
  intros Hs. injection Hs as <-. rewrite clearCanvas_unfold.
  apply saveState_bounded. cbn. lia.
Qed.

Lemma reachable_bounded s : reachable s -> bounded s.
Proof.
  induction 1 as [bounds s Hinit | a s _ IH].
  - apply (ngOnInit_bounded true bounds), Hinit.
  - apply after_bounded, IH.
Qed.

(** C10.  Once [ngOnInit] has returned, the undo stack has at least one
    entry and the two stacks together have at most 10; [saveState] and
    every action (the listeners, the public methods, the callbacks of
    loaded images) keep it so, whether they return or raise; hence in
    every state of an initialised component the redo stack has at most 9
    entries. *)
Theorem stacks_bounded :
  (forall bounds s, ngOnInit true (constructed bounds) = inr s -> bounded s)
  /\ (forall s, bounded s -> bounded (saveState s))
  /\ (forall a s s', bounded s -> step a s = inr s' -> bounded s')
  /\ (forall a s, bounded s -> bounded (after a s))
  /\ (forall s, reachable s ->
        1 <= List.length (undoStack s)
        /\ List.length (undoStack s) + List.length (redoStack s) <= 10
        /\ List.length (redoStack s) <= 9).
Proof.
  split; [exact (ngOnInit_bounded true)|].
  split; [intros s [_ Hs]; apply saveState_bounded; lia|].
  split; [exact step_bounded|].
  split; [exact after_bounded|].
  intros s Hs. destruct (reachable_bounded s Hs) as [Hlow Hsum].
  repeat split; lia.
Qed.

End HistoryManager.

(** ** The shape renderer *)

Section ShapeRenderer.
Context {browser : Surface}.
Implicit Types (s : State).
Local Open Scope float_scope.

(** C7.  With the circle tool, [drawShape] strokes a path made of one arc:
    a full turn around the start point, with the Euclidean distance from
    the start point to the end point as its radius.  From (50,50) to
    (80,50) the radius is 30. *)
Theorem drawShape_circle s (sx sy ex ey : number) :
  selectedShape s = "circle" ->
  let circle := [Arc sx sy (distance sx sy ex ey) 0 (2 * Math_PI)] in
  path (drawShape sx sy ex ey s) = circle
  /\ pixels (drawShape sx sy ex ey s) = strokePath (strokeStyle s) circle (pixels s)
  /\ path (drawShape 50 50 80 50 s) = [Arc 50 50 30 0 (2 * Math_PI)].
Proof.
  intros Hshape. unfold drawShape, stroke, arc, beginPath. fields.
  rewrite Hshape. cbn [String.eqb Ascii.eqb Bool.eqb]. fields.
  repeat split.
Qed.

(** C8.  With the rectangle tool, [drawShape] strokes a path made of one
    rectangle: its corner is the start point, its width and height are
    the differences of the end point and the start point, sign included.
    From (10,10) to (5,5) the width and the height are -5. *)
Theorem drawShape_rectangle s (sx sy ex ey : number) :
  selectedShape s = "rectangle" ->
  let rectangle := [Rect sx sy (ex - sx) (ey - sy)] in
  path (drawShape sx sy ex ey s) = rectangle
  /\ pixels (drawShape sx sy ex ey s)
     = strokePath (strokeStyle s) rectangle (pixels s)
  /\ path (drawShape 10 10 5 5 s) = [Rect 10 10 (-5) (-5)].
Proof.
  intros Hshape. unfold drawShape, stroke, rect, beginPath. fields.
  rewrite Hshape. cbn [String.eqb Ascii.eqb Bool.eqb]. fields.
  repeat split.
Qed.

End ShapeRenderer.

(** ** Input capture *)

Section InputCapture.
Context {browser : Surface}.
Implicit Types (s : State).

(** The reading of the coordinates of a mouse event. *)
Lemma getCanvasCoordinates_mouse e s :
  getCanvasCoordinates (Some (EMouse e)) s =
    inr ((clientX e - left (boundingClientRect s))%float,
         (clientY e - top (boundingClientRect s))%float).
Proof. reflexivity. Qed.

(** A [touchend] whose finger was the last one on the screen has no
    entry in [touches]: the handler raises before it draws, ends the
    session or saves. *)
Lemma onTouchEnd_last_finger s :
  drawing s = true ->
  exists e, onTouchEnd (Some (ETouch {| touches := [] |})) s = inl e.
Proof. intros Hd. unfold onTouchEnd. rewrite Hd. eexists. reflexivity. Qed.

(** C6, as the code has it.  In a drawing session with a tool other than
    freehand, [onMouseUp] and [onTouchEnd] take their coordinates from
    the global event of the moment, through [getCanvasCoordinates]: for
    a mouse event, its client position less the origin of the canvas.
    When that reading succeeds they draw the shape from the start point
    to that position, end the session and save; nothing of the earlier
    move events enters. *)
Theorem release_reads_global_event s (event : option Event) (x y : number) :
  drawing s = true ->
  (selectedShape s =? "freehand") = false ->
  getCanvasCoordinates event s = inr (x, y) ->
  let committed_shape :=
    saveState (stopDrawing (drawShape (startX s) (startY s) x y s)) in
  onMouseUp event s = inr committed_shape
  /\ onTouchEnd event s = inr committed_shape
  /\ drawing committed_shape = false
  /\ (forall e, event = Some (EMouse e) ->
        x = (clientX e - left (boundingClientRect s))%float
        /\ y = (clientY e - top (boundingClientRect s))%float).
Proof.
  intros Hd Htool Hxy. cbv zeta.
  assert (Hup : onMouseUp event s
                = inr (saveState (stopDrawing (drawShape (startX s) (startY s) x y s)))).
  { unfold onMouseUp. rewrite Hd, Hxy. cbn [bind]. rewrite Htool. reflexivity. }
  split; [exact Hup|]. split; [exact Hup|]. split.
  - unfold saveState, stopDrawing. fields.
    repeat match goal with
           | |- context [if ?b then _ else _] => destruct b
           end; reflexivity.
  - intros e ->. rewrite getCanvasCoordinates_mouse in Hxy.
    injection Hxy as <- <-. split; reflexivity.
Qed.

End InputCapture.

(** ** Export *)

Section ExportImage.
Context {browser : Surface}.
Implicit Types (s : State).

Lemma BACKGROUND_COLOR_opaque : opaque_color BACKGROUND_COLOR = true.
Proof. reflexivity. Qed.

(** C9.  [downloadCanvas] hands the browser one file, named
    [sketchy.png].  Its content decodes to the canvas drawn over a
    surface first filled whole with [#FFFFFF]: an image without a
    transparent pixel, which depends on the pixels of the canvas and on
    nothing else of the state, the background colour included.  The
    component's own state is left as it was. *)
Theorem downloadCanvas_spec s :
  let white :=
    fillRect "#FFFFFF" 0%float 0%float canvas_width canvas_height blank in
  let image := drawImage (pixels s) 0%float 0%float white in
  opaque white = true
  /\ opaque image = true
  /\ downloadCanvas s =
       set_downloads
         (downloads s ++ [{| download := "sketchy.png"; href := toDataURL image |}])
         s
  /\ decodeImage (toDataURL image) = Some image
  /\ (forall color,
        downloads (downloadCanvas (set_backgroundColor color s))
        = downloads (downloadCanvas s)).
Proof.
  cbv zeta.
  assert (Hwhite : opaque (fillRect "#FFFFFF" 0%float 0%float
                             canvas_width canvas_height blank) = true)
    by (apply fillRect_opaque; reflexivity).
  split; [exact Hwhite|].
  split; [apply drawImage_opaque, Hwhite|].
  split; [reflexivity|].
  split; [apply decode_toDataURL|].
  intros color. reflexivity.
Qed.

End ExportImage.

(** * The component at work

    Runs of the component on the surface [Sketch.surface], from the state
    [Sketch.initial] that [ngOnInit] leaves. *)

Section Runs.
#[local] Existing Instance Sketch.surface.
Local Open Scope float_scope.

Lemma initial_reachable : reachable Sketch.initial.
Proof. apply (reachable_init Sketch.origin). reflexivity. Qed.

Lemma run_reachable (l : list Action) (s : State) :
  reachable s -> reachable (run l s).
Proof.
  revert s. induction l as [|a l IH]; intros s Hs; cbn [run].
  - exact Hs.
  - apply IH, reachable_step, Hs.
Qed.

(** C1 at work: a snapshot of the initial state. *)
Lemma saveState_spec_witness :
  undoStack (saveState Sketch.initial)
    = undoStack Sketch.initial ++ [toDataURL (pixels Sketch.initial)]
  /\ List.length (undoStack (saveState Sketch.initial)) <= 10.
Proof.
  pose proof (saveState_spec Sketch.initial) as H. cbv zeta in H.
  destruct H as (Hpush & _ & Hbound & _).
  split.
  - apply Hpush. vm_compute. repeat constructor.
  - apply Hbound. vm_compute. repeat constructor.
Defined.

(** C2 at work: a clear of the initial state. *)
Lemma committed_after_commit_witness :
  undoStack (clearCanvas Sketch.initial) <> []
  /\ committed (clearCanvas Sketch.initial).
Proof.
  destruct (committed_after_commit Sketch.initial) as (_ & _ & _ & H).
  apply (H ClearCanvas); reflexivity.
Defined.

(** C3 at work: the initial state has one entry to undo and none to
    redo. *)
Lemma undo_redo_noop_witness :
  undoCanvas Sketch.initial = Sketch.initial
  /\ redoCanvas Sketch.initial = Sketch.initial.
Proof.
  destruct (undo_redo_noop Sketch.initial) as (Hundo & Hredo).
  split.
  - apply Hundo. vm_compute. repeat constructor.
  - apply Hredo. reflexivity.
Defined.

(** C5: the stroke under way is on the canvas before the clear and is not
    there after the undo, which restores the blank canvas of the start. *)
Lemma clear_undo_mid_stroke :
  reachable mid_stroke
  /\ undoStack mid_stroke <> []
  /\ pixels mid_stroke
     = {| Sketch.covered := true;
          Sketch.paint := "fill #ffffff;stroke #000000 ML;" |}
  /\ pixels (settle (undoCanvas (clearCanvas mid_stroke)))
     = {| Sketch.covered := true; Sketch.paint := "fill #ffffff;" |}
  /\ pixels (settle (undoCanvas (clearCanvas mid_stroke))) <> pixels mid_stroke.
Proof.
  split; [apply run_reachable, initial_reachable|].
  split; [discriminate|].
  split; [reflexivity|].
  split; [reflexivity|].
  intros H. vm_compute in H. discriminate H.
Qed.

(** C5 at work: a clear of the initial state, then an undo. *)
Lemma clear_undo_restores_witness :
  pixels (settle (undoCanvas (clearCanvas Sketch.initial)))
  = pixels Sketch.initial.
Proof.
  apply (clear_undo_restores Sketch.initial). reflexivity.
Defined.

(** C6: the mouse was last seen moving at (10,10); the button is released
    with the global event at (20,20); the line committed ends at
    (20,20). *)
Lemma release_ignores_last_move :
  drawing dragging_line = true
  /\ selectedShape dragging_line = "line"
  /\ (exists s2,
        onMouseUp (Some (EMouse (mouseAt 20 20))) dragging_line = inr s2
        /\ path s2 = [MoveTo 0 0; LineTo 20 20]
        /\ path s2 <> [MoveTo 0 0; LineTo 10 10])
  /\ ~ release_commits_last_move.
Proof.
  split; [reflexivity|]. split; [reflexivity|]. split.
  - eexists. split; [reflexivity|]. split; [reflexivity|].
    intros H. apply (f_equal (sameEnd [MoveTo 0 0; LineTo 10 10])) in H.
    vm_compute in H. discriminate H.
  - intros Hclaim.
    destruct (Hclaim
                (run [ShapeSelected "line"; MouseDown (mouseAt 0 0)] Sketch.initial)
                (mouseAt 10 10) (Some (EMouse (mouseAt 20 20)))
                dragging_line _ eq_refl eq_refl eq_refl eq_refl)
      as (x & y & Hxy & Hs2).
    rewrite getCanvasCoordinates_mouse in Hxy. injection Hxy as <- <-.
    apply (f_equal (fun s => sameEnd [MoveTo 0 0; LineTo 20 20] (path s))) in Hs2.
    vm_compute in Hs2. discriminate Hs2.
Qed.

(** C6 at work: the release of the line under way. *)
Lemma release_reads_global_event_witness :
  onMouseUp (Some (EMouse (mouseAt 20 20))) dragging_line
  = inr (saveState (stopDrawing (drawShape 0 0 20 20 dragging_line))).
Proof.
  apply (release_reads_global_event dragging_line
           (Some (EMouse (mouseAt 20 20))) 20 20); reflexivity.
Defined.

(** C7 at work: the circle tool on the initial canvas. *)
Lemma drawShape_circle_witness :
  path (drawShape 50 50 80 50 (onShapeSelected "circle" Sketch.initial))
  = [Arc 50 50 30 0 (2 * Math_PI)].
Proof.
  apply (drawShape_circle (onShapeSelected "circle" Sketch.initial) 50 50 80 50).
  reflexivity.
Defined.

(** C8 at work: the rectangle tool on the initial canvas. *)
Lemma drawShape_rectangle_witness :
  path (drawShape 10 10 5 5 (onShapeSelected "rectangle" Sketch.initial))
  = [Rect 10 10 (-5) (-5)].
Proof.
  apply (drawShape_rectangle (onShapeSelected "rectangle" Sketch.initial) 10 10 5 5).
  reflexivity.
Defined.

(** C10 at work: the line under way. *)
Lemma stacks_bounded_witness :
  List.length (redoStack dragging_line) <= 9.
Proof.
  destruct stacks_bounded as (_ & _ & _ & _ & H).
  apply (H dragging_line). apply run_reachable, initial_reachable.
Defined.

End Runs.

(** * Further properties of the component *)

(** ** The listeners *)

Section Listeners.
Context {browser : Surface}.
Implicit Types (s : State).

Lemma getCanvasCoordinates_readable event s :
  readable event = true ->
  exists x y, getCanvasCoordinates event s = inr (x, y).
Proof.
  destruct event as [[e|e|e]|]; cbn; try discriminate.
  - intros _. eexists _, _. reflexivity.
  - destruct (touches e); [discriminate|]. intros _. eexists _, _. reflexivity.
Qed.

Lemma getCanvasCoordinates_unreadable event s :
  readable event = false ->
  exists msg, getCanvasCoordinates event s = inl (TypeError msg).
Proof.
  destruct event as [[e|e|e]|]; cbn; try discriminate;
    try (intros _; eexists; reflexivity).
  destruct (touches e); [|discriminate]. intros _. eexists. reflexivity.
Qed.

(** [saveState] rewrites the two stacks and nothing else. *)
Lemma saveState_eq s :
  saveState s = set_redoStack [] (set_undoStack (undoStack (saveState s)) s).
Proof.
  rewrite saveState_undoStack. cbv zeta. unfold saveState. fields.
  destruct (10 <? List.length (push (undoStack s) (toDataURL (pixels s))))%nat;
    reflexivity.
Qed.

Lemma release_returns event x y s :
  drawing s = true ->
  getCanvasCoordinates event s = inr (x, y) ->
  onMouseUp event s =
    inr (saveState
           (stopDrawing
              (if negb (selectedShape s =? "freehand")
               then drawShape (startX s) (startY s) x y s else s))).
Proof. intros Hd Hxy. unfold onMouseUp. rewrite Hd, Hxy. reflexivity. Qed.

Lemma stopDrawing_drawing s : drawing (stopDrawing s) = false.
Proof.
  unfold stopDrawing. fields.
  destruct (selectedShape s =? "freehand"); reflexivity.
Qed.

(** X1.  The listeners that raise, and when: a release ([mouseup],
    [mouseleave], [touchend], [touchcancel]) or a [touchmove] during a
    drawing session, and a [touchstart] at any time, when the event they
    read has no position to give (for the releases: the global event is
    not a mouse event and has no touch left in its list).  What is raised
    is a [TypeError].  No other action raises. *)
Theorem step_raises (a : Action) s :
  ((exists e, step a s = inl e) <-> raises a s = true)
  /\ (forall e, step a s = inl e -> exists msg, e = TypeError msg).
Proof.
  assert (Hnever : forall s' : State,
    ((exists e, @inr error State s' = inl e) <-> false = true)
    /\ (forall e, @inr error State s' = inl e -> exists msg, e = TypeError msg)).
  { intros s'. split; [|discriminate].
    split; [intros [e He]; discriminate | discriminate]. }
  assert (Hbind : forall event (k : number * number -> Result State),
    (forall p, exists s', k p = inr s') ->
    ((exists e, bind (getCanvasCoordinates event s) k = inl e)
     <-> negb (readable event) = true)
    /\ (forall e, bind (getCanvasCoordinates event s) k = inl e ->
        exists msg, e = TypeError msg)).
  { intros event k Hk. destruct (readable event) eqn:Hr; cbn [negb].
    - destruct (getCanvasCoordinates_readable event s Hr) as (x & y & ->).
      cbn [bind]. destruct (Hk (x, y)) as (s' & ->). apply Hnever.
    - destruct (getCanvasCoordinates_unreadable event s Hr) as (msg & ->).
      cbn [bind]. split.
      + split; [reflexivity | intros _; eexists; reflexivity].
      + intros e He. injection He as <-. eexists. reflexivity. }
  assert (Hguard : forall event (k : number * number -> Result State),
    (forall p, exists s', k p = inr s') ->
    let r := if drawing s then bind (getCanvasCoordinates event s) k else ret s in
    ((exists e, r = inl e) <-> drawing s && negb (readable event) = true)
    /\ (forall e, r = inl e -> exists msg, e = TypeError msg)).
  { intros event k Hk. cbv zeta. destruct (drawing s); cbn [andb].
    - apply Hbind, Hk.
    - apply Hnever. }
  destruct a; cbn [step raises]; try apply Hnever.
  - (* mousemove *)
    unfold onMouseMove. destruct (drawing s); apply Hnever.
  - apply (Hguard e). intros [x y]. eexists. reflexivity.
  - apply (Hguard e). intros [x y]. eexists. reflexivity.
  - (* touchstart *)
    apply (Hbind (Some (ETouch e))). intros [x y]. eexists. reflexivity.
  - (* touchmove *)
    apply (Hguard (Some (ETouch e))). intros [x y]. eexists. reflexivity.
  - apply (Hguard e). intros [x y]. eexists. reflexivity.
  - apply (Hguard e). intros [x y]. eexists. reflexivity.
Qed.

(** X2.  A release that returns ends the session: [drawing] is false
    afterwards, and from then on every move and every release, whatever
    the event (the global event may even be undefined), returns the state
    as it is, without raising, until the next press. *)
Theorem release_ends_session (event : option Event) s s' :
  drawing s = true ->
  onMouseUp event s = inr s' ->
  drawing s' = false
  /\ (forall later, onMouseUp later s' = inr s' /\ onTouchEnd later s' = inr s')
  /\ (forall e, onMouseMove e s' = inr s')
  /\ (forall e, onTouchMove e s' = inr s').
Proof.
  intros Hd Hup.
  assert (Hidle : drawing s' = false).
  { destruct (onMouseUp_drawing event s s' Hd Hup) as (x & y & _ & ->).
    rewrite saveState_eq. fields. apply stopDrawing_drawing. }
  split; [exact Hidle|].
  unfold onMouseUp, onTouchEnd, onMouseMove, onTouchMove. rewrite Hidle.
  repeat split.
Qed.

(** X3.  The line tool, a press and a release: the component strokes the
    segment from the press to the release, both taken relative to the
    origin of the canvas, on the canvas as it was, saves the result on the
    undo stack, empties the redo stack and ends the session. *)
Theorem line_gesture s (down up : MouseEvent) :
  selectedShape s = "line" ->
  let box := boundingClientRect s in
  let segment :=
    [MoveTo (clientX down - left box) (clientY down - top box);
     LineTo (clientX up - left box) (clientY up - top box)]%float in
  exists s1 s2,
    onMouseDown down s = inr s1
    /\ onMouseUp (Some (EMouse up)) s1 = inr s2
    /\ path s2 = segment
    /\ pixels s2 = strokePath (strokeStyle s) segment (pixels s)
    /\ peek (undoStack s2) = Some (toDataURL (pixels s2))
    /\ redoStack s2 = []
    /\ drawing s2 = false.
Proof.
  intros Htool. cbv zeta.
  eexists. eexists. split; [reflexivity|].
  unfold onMouseUp. fields. rewrite Htool. cbn [String.eqb Ascii.eqb Bool.eqb].
  fields. cbn [getCanvasCoordinates bind ret negb]. fields.
  split; [reflexivity|].
  rewrite saveState_peek, saveState_pixels.
  rewrite saveState_eq. fields.
  unfold stopDrawing, drawShape, stroke, lineTo, moveTo, beginPath.
  destruct s. cbn in Htool. subst. cbn. repeat split.
Qed.

(** X4.  A release with the freehand tool draws nothing: it closes the
    path and saves the canvas as the last move left it. *)
Theorem freehand_release (event : option Event) s :
  drawing s = true ->
  selectedShape s = "freehand" ->
  readable event = true ->
  exists s',
    onMouseUp event s = inr s'
    /\ pixels s' = pixels s
    /\ path s' = path s ++ [ClosePath]
    /\ peek (undoStack s') = Some (toDataURL (pixels s))
    /\ drawing s' = false.
Proof.
  intros Hd Htool Hr.
  destruct (getCanvasCoordinates_readable event s Hr) as (x & y & Hxy).
  rewrite (release_returns event x y s Hd Hxy).
  rewrite Htool. cbn [String.eqb Ascii.eqb Bool.eqb negb].
  eexists. split; [reflexivity|].
  rewrite saveState_peek, saveState_pixels. rewrite saveState_eq. fields.
  unfold stopDrawing, closePath. fields.
  rewrite Htool. cbn [String.eqb Ascii.eqb Bool.eqb]. fields.
  repeat split.
Qed.


(** X6.  [clearCanvas] leaves the current path alone.  In a freehand
    session, the move that follows a clear extends the path of the whole
    session and strokes all of it on the filled canvas: the segments drawn
    before the clear come back. *)
Theorem clear_keeps_path (e : MouseEvent) s :
  drawing s = true ->
  selectedShape s = "freehand" ->
  let box := boundingClientRect s in
  let extended :=
    path s ++ [LineTo (clientX e - left box) (clientY e - top box)]%float in
  exists s',
    onMouseMove e (clearCanvas s) = inr s'
    /\ path (clearCanvas s) = path s
    /\ path s' = extended
    /\ pixels s'
       = strokePath (strokeStyle s) extended
           (fillRect (backgroundColor s) 0%float 0%float canvas_width canvas_height
              (pixels s)).
Proof.
  intros Hd Htool. cbv zeta. rewrite clearCanvas_unfold.
  unfold onMouseMove. rewrite saveState_eq. fields.
  rewrite Hd, Htool. cbn [getCanvasCoordinates bind ret String.eqb Ascii.eqb Bool.eqb].
  fields. eexists. split; [reflexivity|].
  unfold stroke, lineTo. fields. repeat split.
Qed.

End Listeners.

(** ** Undo and redo *)

Section UndoRedo.
Context {browser : Surface}.
Implicit Types (s : State).

Lemma undoCanvas_undoStack s :
  undoStack (undoCanvas s) =
    if (1 <? List.length (undoStack s))%nat
    then removelast (undoStack s) else undoStack s.
Proof.
  destruct (Nat.ltb_spec 1 (List.length (undoStack s))) as [Hgt|Hle].
  - destruct (two_on_top _ Hgt) as (front & below & x & Hu).
    rewrite (undoCanvas_pops _ _ _ _ Hu), Hu. fields.
    replace (front ++ [below; x]) with ((front ++ [below]) ++ [x])
      by (rewrite <- app_assoc; reflexivity).
    symmetry. apply removelast_last.
  - rewrite undoCanvas_floor by exact Hle. reflexivity.
Qed.

Lemma undoCanvas_timeline s : timeline (undoCanvas s) = timeline s.
Proof.
  destruct (Nat.le_gt_cases (List.length (undoStack s)) 1) as [Hle|Hgt].
  - rewrite undoCanvas_floor by exact Hle. reflexivity.
  - destruct (two_on_top _ Hgt) as (front & below & x & Hu).
    rewrite (undoCanvas_pops _ _ _ _ Hu). unfold timeline. fields.
    rewrite Hu, rev_app_distr. cbn [rev app].
    rewrite <- !app_assoc. reflexivity.
Qed.

Lemma redoCanvas_timeline s : timeline (redoCanvas s) = timeline s.
Proof.
  destruct (redoStack s) as [|y r] eqn:Hr.
  - rewrite redoCanvas_empty by exact Hr. reflexivity.
  - assert (Hne : redoStack s <> []) by (rewrite Hr; discriminate).
    destruct (exists_last Hne) as (front & x & Hr').
    rewrite (redoCanvas_pops _ _ _ Hr'). unfold timeline. fields.
    rewrite Hr', rev_app_distr. cbn [rev app].
    rewrite <- app_assoc. reflexivity.
Qed.

(** X7.  Undo and redo only move the boundary between the two stacks: the
    undo stack followed by the redo stack read backwards is the same list
    of snapshots before and after each of them, from any state. *)
Theorem undo_redo_timeline s :
  timeline (undoCanvas s) = timeline s
  /\ timeline (redoCanvas s) = timeline s.
Proof. split; [apply undoCanvas_timeline | apply redoCanvas_timeline]. Qed.

Lemma iter_undo_timeline (n : nat) s :
  timeline (Nat.iter n undoCanvas s) = timeline s.
Proof.
  induction n as [|n IH]; [reflexivity|].
  rewrite Nat.iter_succ, undoCanvas_timeline. exact IH.
Qed.

(** X8.  [n] calls of [undoCanvas] in a row leave on the undo stack its
    first entries, as many as it had less [n], and never less than one:
    from the call on that would empty it, nothing moves, and what stays
    is the oldest entry.  The entries taken off are on the redo stack:
    the line of snapshots is the same. *)
Theorem iterated_undo (n : nat) s :
  undoStack (Nat.iter n undoCanvas s)
    = firstn (Nat.max 1 (List.length (undoStack s) - n)) (undoStack s)
  /\ (List.length (undoStack s) - 1 <= n ->
      undoStack (Nat.iter n undoCanvas s) = firstn 1 (undoStack s))
  /\ timeline (Nat.iter n undoCanvas s) = timeline s.
Proof.
  assert (Hn : forall n,
    undoStack (Nat.iter n undoCanvas s)
      = firstn (Nat.max 1 (List.length (undoStack s) - n)) (undoStack s)).
  { clear n. induction n as [|n IH].
    - change (Nat.iter 0 undoCanvas s) with s. rewrite Nat.sub_0_r.
      destruct (undoStack s) as [|x u]; [reflexivity|].
      rewrite Nat.max_r by (cbn; lia). symmetry. apply firstn_all.
    - rewrite Nat.iter_succ, undoCanvas_undoStack, IH.
      rewrite length_firstn.
      destruct (Nat.le_gt_cases (List.length (undoStack s) - n) 1) as [Hle|Hgt].
      + rewrite (Nat.max_l 1 (_ - n)) by exact Hle.
        rewrite (Nat.max_l 1 (_ - S n)) by lia.
        destruct (Nat.ltb_spec 1 (Nat.min 1 (List.length (undoStack s))));
          [lia | reflexivity].
      + rewrite (Nat.max_r 1 (_ - n)) by lia.
        rewrite (Nat.max_r 1 (_ - S n)) by lia.
        destruct (Nat.ltb_spec 1
                    (Nat.min (List.length (undoStack s) - n)
                             (List.length (undoStack s)))); [|lia].
        replace (List.length (undoStack s) - n)
          with (S (List.length (undoStack s) - S n)) by lia.
        apply removelast_firstn. lia. }
  split; [apply Hn|]. split; [|apply iter_undo_timeline].
  intros Hlast. rewrite Hn. rewrite Nat.max_l by lia. reflexivity.
Qed.

(** X9.  On the stacks, undo and redo are inverse of each other whenever
    the first of the two does something: an undo with two entries or more
    followed by a redo, and a redo followed by an undo when neither stack
    is empty, give back both stacks. *)
Theorem undo_redo_inverse s :
  (1 < List.length (undoStack s) ->
     undoStack (redoCanvas (undoCanvas s)) = undoStack s
     /\ redoStack (redoCanvas (undoCanvas s)) = redoStack s)
  /\ (undoStack s <> [] -> redoStack s <> [] ->
      undoStack (undoCanvas (redoCanvas s)) = undoStack s
      /\ redoStack (undoCanvas (redoCanvas s)) = redoStack s).
Proof.
  split.
  - intros Hgt. destruct (two_on_top _ Hgt) as (front & below & x & Hu).
    rewrite (undo_redo _ _ _ _ Hu). split; reflexivity.
  - intros Hu Hr.
    destruct (exists_last Hu) as (ufront & below & Hu').
    destruct (exists_last Hr) as (rfront & x & Hr').
    rewrite (redoCanvas_pops _ _ _ Hr').
    erewrite undoCanvas_pops
      by (fields; rewrite Hu', <- app_assoc; reflexivity).
    fields. split; congruence.
Qed.

(** X10.  Whatever commits invalidates the redo history: when an action
    that reaches [saveState] returns, the redo stack is empty and
    [redoCanvas] does nothing. *)
Theorem commit_clears_redo (a : Action) s s' :
  commits a s = true ->
  step a s = inr s' ->
  redoStack s' = [] /\ redoCanvas s' = s'.
Proof.
  intros Hc Hstep. apply step_stacks in Hstep. rewrite Hc in Hstep.
  destruct Hstep as (t & _ & ->).
  split; [reflexivity | apply redoCanvas_empty; reflexivity].
Qed.

End UndoRedo.

(** ** Restoring snapshots *)

Section Restoring.
Context {browser : Surface}.
Implicit Types (s : State).

Lemma same_stacks_encoded s s' : same_stacks s s' -> encoded s -> encoded s'.
Proof. unfold encoded. intros [-> ->]. tauto. Qed.

Lemma saveState_encoded s : encoded s -> encoded (saveState s).
Proof.
  unfold encoded. intros Hs. apply Forall_app in Hs. destruct Hs as [Hu _].
  rewrite saveState_redoStack, app_nil_r, saveState_undoStack. cbv zeta.
  assert (Hpush : Forall (fun url => exists r, url = toDataURL r)
                    (push (undoStack s) (toDataURL (pixels s)))).
  { unfold push. apply Forall_app. split; [exact Hu|].
    constructor; [eexists; reflexivity | constructor]. }
  destruct (10 <? _)%nat; [|exact Hpush].
  unfold shift. destruct (push (undoStack s) (toDataURL (pixels s))); [constructor|].
  inversion Hpush; assumption.
Qed.

Lemma undoCanvas_encoded s : encoded s -> encoded (undoCanvas s).
Proof.
  intros Hs.
  destruct (Nat.le_gt_cases (List.length (undoStack s)) 1) as [Hle|Hgt].
  - rewrite undoCanvas_floor by exact Hle. exact Hs.
  - destruct (two_on_top _ Hgt) as (front & below & x & Hu).
    rewrite (undoCanvas_pops _ _ _ _ Hu). unfold encoded in *. fields.
    rewrite Hu in Hs. rewrite !Forall_app in *.
    destruct Hs as [[Hfront Htwo] Hredo].
    inversion Htwo as [|? ? Hbelow Hx']; subst.
    repeat split; try assumption.
    constructor; [exact Hbelow | constructor].
Qed.

Lemma redoCanvas_encoded s : encoded s -> encoded (redoCanvas s).
Proof.
  intros Hs. destruct (redoStack s) as [|y r] eqn:Hr.
  - rewrite redoCanvas_empty by exact Hr. exact Hs.
  - assert (Hne : redoStack s <> []) by (rewrite Hr; discriminate).
    destruct (exists_last Hne) as (front & x & Hr').
    rewrite (redoCanvas_pops _ _ _ Hr'). unfold encoded in *. fields.
    rewrite Hr' in Hs. rewrite !Forall_app in *.
    destruct Hs as [Hundo [Hfront Hx]].
    repeat split; assumption.
Qed.

Lemma after_encoded a s : encoded s -> encoded (after a s).
Proof.
  intros Hs. unfold after. destruct (step a s) as [e|s'] eqn:Hstep; [exact Hs|].
  apply step_stacks in Hstep. destruct (commits a s).
  - destruct Hstep as (t & Hsame & ->).
    apply saveState_encoded, (same_stacks_encoded s); assumption.
  - destruct Hstep as [Hsame | [-> | ->]].
    + apply (same_stacks_encoded s); assumption.
    + apply undoCanvas_encoded, Hs.
    + apply redoCanvas_encoded, Hs.
Qed.

Lemma reachable_encoded s : reachable s -> encoded s.
Proof.
  induction 1 as [bounds s Hinit | a s _ IH].
  - injection Hinit as <-. rewrite clearCanvas_unfold.
    apply saveState_encoded. constructor.
  - apply after_encoded, IH.
Qed.

Lemma fold_onload_stacks (l : list PendingImage) s :
  same_stacks s (fold_left (fun s i => onload i s) l s).
Proof.
  revert s. induction l as [|i l IH]; intros s; cbn [fold_left].
  - split; reflexivity.
  - eapply same_stacks_trans; [apply onload_stacks | apply IH].
Qed.

Lemma settle_stacks s : same_stacks s (settle s).
Proof.
  unfold settle.
  apply (same_stacks_trans s (set_pending [] s)); [split; reflexivity|].
  apply fold_onload_stacks.
Qed.

(** X11.  In an initialised component every entry of the two stacks is the
    encoding of a canvas, and undo and redo bring the canvas back in line
    with the history: after an [undoCanvas] or a [redoCanvas] that does
    something, once the waiting images have loaded in the order they were
    asked for, the top of the undo stack is the encoding of the canvas. *)
Theorem restore_settles s :
  reachable s ->
  encoded s
  /\ (1 < List.length (undoStack s) -> committed (settle (undoCanvas s)))
  /\ (redoStack s <> [] -> committed (settle (redoCanvas s))).
Proof.
  intros Hreach. pose proof (reachable_encoded s Hreach) as Hs.
  split; [exact Hs|]. split.
  - intros Hgt. destruct (two_on_top _ Hgt) as (front & below & x & Hu).
    assert (Hbelow : exists r, below = toDataURL r).
    { unfold encoded in Hs. rewrite Hu, !Forall_app in Hs.
      destruct Hs as [[_ Htwo] _]. inversion Htwo; assumption. }
    destruct Hbelow as (r & ->).
    unfold committed. destruct (settle_stacks (undoCanvas s)) as [-> _].
    rewrite (settle_restore _ (pending s) r)
      by (rewrite (undoCanvas_pops _ _ _ _ Hu); reflexivity).
    rewrite (undoCanvas_pops _ _ _ _ Hu). fields. apply peek_push.
  - intros Hne. destruct (exists_last Hne) as (front & x & Hr).
    assert (Hx : exists r, x = toDataURL r).
    { unfold encoded in Hs. rewrite Hr, !Forall_app in Hs.
      destruct Hs as [_ [_ Hx]]. inversion Hx; assumption. }
    destruct Hx as (r & ->).
    unfold committed. destruct (settle_stacks (redoCanvas s)) as [-> _].
    rewrite (settle_restore _ (pending s) r)
      by (rewrite (redoCanvas_pops _ _ _ Hr); reflexivity).
    rewrite (redoCanvas_pops _ _ _ Hr). fields. apply peek_push.
Qed.

Lemma onload_restore (r : Raster) s :
  pixels (onload (RestoreImage (toDataURL r)) s) = r
  /\ pending (onload (RestoreImage (toDataURL r)) s) = pending s.
Proof.
  unfold onload. rewrite decode_toDataURL. fields.
  split; [apply drawImage_cleared | reflexivity].
Qed.

Lemma imageLoaded_at (n : nat) s (i : PendingImage) :
  nth_error (pending s) n = Some i ->
  imageLoaded n s = onload i (set_pending (remove_nth n (pending s)) s).
Proof. intros Hn. unfold imageLoaded. rewrite Hn. reflexivity. Qed.

(** X12.  Nothing orders the restorations: with two of them waiting, the
    canvas ends as the image that loads last, whichever was asked for
    first.  Loaded in the order of the requests the canvas is the second
    snapshot; loaded the other way round it is the first. *)
Theorem last_loaded_wins s (first second : Raster) :
  pending s = [RestoreImage (toDataURL first); RestoreImage (toDataURL second)] ->
  (pixels (imageLoaded 0 (imageLoaded 0 s)) = second
   /\ pending (imageLoaded 0 (imageLoaded 0 s)) = [])
  /\ (pixels (imageLoaded 0 (imageLoaded 1 s)) = first
      /\ pending (imageLoaded 0 (imageLoaded 1 s)) = []).
Proof.
  intros Hp.
  assert (Hlast : forall (r : Raster) t,
            pending t = [RestoreImage (toDataURL r)] ->
            pixels (imageLoaded 0 t) = r /\ pending (imageLoaded 0 t) = []).
  { intros r t Ht.
    rewrite (imageLoaded_at 0 t (RestoreImage (toDataURL r)))
      by (rewrite Ht; reflexivity).
    destruct (onload_restore r (set_pending (remove_nth 0 (pending t)) t))
      as [-> ->].
    fields. rewrite Ht. split; reflexivity. }
  split; apply Hlast.
  - rewrite (imageLoaded_at 0 s (RestoreImage (toDataURL first)))
      by (rewrite Hp; reflexivity).
    destruct (onload_restore first (set_pending (remove_nth 0 (pending s)) s))
      as [_ ->].
    fields. rewrite Hp. reflexivity.
  - rewrite (imageLoaded_at 1 s (RestoreImage (toDataURL second)))
      by (rewrite Hp; reflexivity).
    destruct (onload_restore second (set_pending (remove_nth 1 (pending s)) s))
      as [_ ->].
    fields. rewrite Hp. reflexivity.
Qed.

End Restoring.

(** ** Settings, initialisation and keyboard *)

Section Settings.
Context {browser : Surface}.
Implicit Types (s : State).

Ltac unchanged :=
  unfold settings; fields;
  repeat match goal with
    | |- context [if ?b then _ else _] => destruct b
    | |- context [match peek ?l with _ => _ end] => destruct (peek l)
    | |- context [match decodeImage ?u with _ => _ end] => destruct (decodeImage u)
    | |- context [match pop ?l with _ => _ end] => destruct (pop l) as [[?|] ?]
    | |- context [match nth_error ?l ?n with _ => _ end] => destruct (nth_error l n)
    end;
  fields; reflexivity.

Lemma saveState_settings s : settings (saveState s) = settings s.
Proof. rewrite saveState_eq. reflexivity. Qed.

Lemma drawShape_settings x0 y0 x1 y1 s :
  settings (drawShape x0 y0 x1 y1 s) = settings s.
Proof. unfold drawShape, stroke, arc, rect, lineTo, moveTo, beginPath. unchanged. Qed.

Lemma stopDrawing_settings s : settings (stopDrawing s) = settings s.
Proof. unfold stopDrawing, closePath. unchanged. Qed.

Lemma redraw_settings s : settings (redraw s) = settings s.
Proof. unfold redraw. unchanged. Qed.

Lemma undoCanvas_settings s : settings (undoCanvas s) = settings s.
Proof. unfold undoCanvas, restoreCanvas. unchanged. Qed.

Lemma redoCanvas_settings s : settings (redoCanvas s) = settings s.
Proof. unfold redoCanvas, restoreCanvas. unchanged. Qed.

Lemma clearCanvas_settings s : settings (clearCanvas s) = settings s.
Proof. unfold clearCanvas. rewrite saveState_settings. reflexivity. Qed.

Lemma imageLoaded_settings n s : settings (imageLoaded n s) = settings s.
Proof.
  unfold imageLoaded. destruct (nth_error (pending s) n) as [[src|src]|];
    unfold onload; unchanged.
Qed.

Lemma handleKeyboardEvent_settings e s :
  settings (handleKeyboardEvent e s) = settings s.
Proof.
  unfold handleKeyboardEvent.
  repeat match goal with
    | |- context [if ?b then _ else _] => destruct b
    end;
    auto using undoCanvas_settings, redoCanvas_settings, clearCanvas_settings.
Qed.

Lemma release_settings event s s' :
  onMouseUp event s = inr s' -> settings s' = settings s.
Proof.
  intros Hup. destruct (drawing s) eqn:Hd.
  - destruct (onMouseUp_drawing event s s' Hd Hup) as (x & y & _ & ->).
    rewrite saveState_settings, stopDrawing_settings.
    destruct (negb _); [apply drawShape_settings | reflexivity].
  - unfold onMouseUp in Hup. rewrite Hd in Hup. injection Hup as <-. reflexivity.
Qed.

Lemma onMouseMove_settings e s s' :
  onMouseMove e s = inr s' -> settings s' = settings s.
Proof.
  unfold onMouseMove. destruct (drawing s); [|intros H; injection H as <-; reflexivity].
  cbn [getCanvasCoordinates bind ret]. intros H. injection H as <-.
  destruct (selectedShape s =? "freehand").
  - reflexivity.
  - rewrite drawShape_settings. apply redraw_settings.
Qed.

Lemma onTouchMove_settings e s s' :
  onTouchMove e s = inr s' -> settings s' = settings s.
Proof.
  unfold onTouchMove. destruct (drawing s); [|intros H; injection H as <-; reflexivity].
  destruct (getCanvasCoordinates (Some (ETouch e)) s) as [err|[x y]]; [discriminate|].
  cbn [bind ret]. intros H. injection H as <-.
  destruct (selectedShape s =? "freehand").
  - reflexivity.
  - rewrite drawShape_settings. apply redraw_settings.
Qed.

Lemma onMouseDown_settings e s s' :
  onMouseDown e s = inr s' -> settings s' = settings s.
Proof.
  unfold onMouseDown. cbn [getCanvasCoordinates bind ret].
  intros H. injection H as <-. unfold moveTo, beginPath. unchanged.
Qed.

Lemma onTouchStart_settings e s s' :
  onTouchStart e s = inr s' -> settings s' = settings s.
Proof.
  unfold onTouchStart.
  destruct (getCanvasCoordinates (Some (ETouch e)) s) as [err|[x y]]; [discriminate|].
  cbn [bind ret]. intros H. injection H as <-. unfold moveTo, beginPath. unchanged.
Qed.

(** X13.  The stroke colour, the background colour, the tool and the files
    downloaded change only through [changeColor],
    [onBackgroundColorSelected], [onShapeSelected] and [downloadCanvas]
    respectively: no other action touches them, so undo, redo and the
    loading of a snapshot bring back pixels and none of these settings. *)
Theorem settings_frame (a : Action) s s' :
  step a s = inr s' ->
  ((forall color, a <> ChangeColor color) -> strokeStyle s' = strokeStyle s)
  /\ ((forall color, a <> BackgroundColorSelected color) ->
      backgroundColor s' = backgroundColor s)
  /\ ((forall shape, a <> ShapeSelected shape) ->
      selectedShape s' = selectedShape s)
  /\ (a <> DownloadCanvas -> downloads s' = downloads s).
Proof.
  intros Hstep.
  assert (Hall : forall t t', settings t' = settings t ->
    strokeStyle t' = strokeStyle t /\ backgroundColor t' = backgroundColor t
    /\ selectedShape t' = selectedShape t /\ downloads t' = downloads t).
  { unfold settings. intros t t' H. injection H as -> -> -> ->. repeat split. }
  assert (Hframe : settings s' = settings s ->
    ((forall color, a <> ChangeColor color) -> strokeStyle s' = strokeStyle s)
    /\ ((forall color, a <> BackgroundColorSelected color) ->
        backgroundColor s' = backgroundColor s)
    /\ ((forall shape, a <> ShapeSelected shape) ->
        selectedShape s' = selectedShape s)
    /\ (a <> DownloadCanvas -> downloads s' = downloads s)).
  { intros H. destruct (Hall _ _ H) as (? & ? & ? & ?).
    repeat split; intros _; assumption. }
  destruct a; cbn [step] in Hstep;
    try (apply Hframe; eapply release_settings; exact Hstep);
    try (apply Hframe;
         first [ apply (onMouseDown_settings _ _ _ Hstep)
               | apply (onMouseMove_settings _ _ _ Hstep)
               | apply (onTouchStart_settings _ _ _ Hstep)
               | apply (onTouchMove_settings _ _ _ Hstep) ]);
    try (injection Hstep as <-).
  - apply Hframe, handleKeyboardEvent_settings.
  - (* tool *)
    repeat split; intros Hne; try reflexivity. exfalso. eapply Hne. reflexivity.
  - (* stroke colour *)
    repeat split; intros Hne; try reflexivity. exfalso. eapply Hne. reflexivity.
  - (* background colour *)
    unfold onBackgroundColorSelected.
    destruct (Hall _ _ (clearCanvas_settings (set_backgroundColor color s)))
      as (Hstroke & _ & Hshape & Hdown).
    fields.
    repeat split; intros Hne; try assumption. exfalso. eapply Hne. reflexivity.
  - apply Hframe, clearCanvas_settings.
  - apply Hframe, undoCanvas_settings.
  - apply Hframe, redoCanvas_settings.
  - (* download *)
    repeat split; intros Hne; try reflexivity. exfalso. apply Hne. reflexivity.
  - apply Hframe, imageLoaded_settings.
  - apply Hframe. reflexivity.
Qed.

(** X14.  [ngOnInit] without a 2D context raises [Error] with the message
    [Unable to get 2D context], whatever the state.  With one, the
    component just constructed ends with a canvas filled with [#ffffff],
    opaque, whose encoding is the one entry of the undo stack; the redo
    stack is empty, nothing is being drawn, no image is waiting and the
    tool is the freehand one. *)
Theorem ngOnInit_spec (bounds : DOMRect) :
  (forall s, ngOnInit false s = inl (Error "Unable to get 2D context"))
  /\ exists s0,
      ngOnInit true (constructed bounds) = inr s0
      /\ pixels s0
         = fillRect "#ffffff" 0%float 0%float canvas_width canvas_height blank
      /\ opaque (pixels s0) = true
      /\ undoStack s0 = [toDataURL (pixels s0)]
      /\ redoStack s0 = []
      /\ drawing s0 = false
      /\ pending s0 = []
      /\ selectedShape s0 = "freehand"
      /\ fillStyle s0 = "#ffffff".
Proof.
  split; [reflexivity|].
  eexists. split; [reflexivity|].
  split; [reflexivity|].
  split; [apply fillRect_opaque; reflexivity|].
  repeat split.
Qed.

(** X15.  The keyboard.  Delete and Backspace clear the canvas whatever
    the modifiers.  Without Ctrl no other key does anything.  With Ctrl, Z
    in either case undoes when Shift is up and redoes when Shift is down,
    and Y in either case redoes. *)
Theorem handleKeyboardEvent_spec (e : KeyboardEvent) s :
  ((key e =? "Delete") || (key e =? "Backspace") = true ->
     handleKeyboardEvent e s = clearCanvas s)
  /\ (ctrlKey e = false ->
      (key e =? "Delete") || (key e =? "Backspace") = false ->
      handleKeyboardEvent e s = s)
  /\ (ctrlKey e = true -> toLowerCase (key e) = "z" ->
      handleKeyboardEvent e s
      = if shiftKey e then redoCanvas s else undoCanvas s)
  /\ (ctrlKey e = true -> toLowerCase (key e) = "y" ->
      handleKeyboardEvent e s = redoCanvas s).
Proof.
  split; [apply handleKeyboardEvent_clear|].
  unfold handleKeyboardEvent. repeat split.
  - intros Hctrl Hk. rewrite Hctrl, Hk. reflexivity.
  - intros Hctrl Hz. rewrite Hctrl, Hz. destruct (shiftKey e); reflexivity.
  - intros Hctrl Hy. rewrite Hctrl, Hy. destruct (shiftKey e); reflexivity.
Qed.

End Settings.

(** ** A snapshot, an undo, a redo *)

Section RoundTrip.
Context {browser : Surface}.
Implicit Types (s : State).

Lemma onload_pending (i : PendingImage) s : pending (onload i s) = pending s.
Proof.
  destruct i; unfold onload; destruct (decodeImage src); reflexivity.
Qed.

Lemma fold_onload_pending (l : list PendingImage) s :
  pending (fold_left (fun s i => onload i s) l s) = pending s.
Proof.
  revert s. induction l as [|i l IH]; intros s; cbn [fold_left].
  - reflexivity.
  - rewrite IH. apply onload_pending.
Qed.

Lemma settle_pending s : pending (settle s) = [].
Proof. unfold settle. rewrite fold_onload_pending. reflexivity. Qed.

(** C4, as the code has it.  [saveState(); undoCanvas(); redoCanvas()],
    from any state.  Write [s1] for the state after the snapshot and [s2]
    for the state after the undo.  The three calls end in [s1] but for the
    images left waiting: both stacks are those of [s1].  If the undo stack
    was empty before the snapshot, neither the undo nor the redo does
    anything.  Otherwise, with [below] the entry that was on top before
    the snapshot: the undo asks for [below] to be restored and the redo
    for the snapshot, which is the entry that was on top of the undo stack
    before the undo.  When the images load in the order they were asked
    for, the canvas shows the canvas [below] encodes once the undo's image
    has loaded, and is the canvas of [s1] again once the redo's image has
    loaded, whether the redo was called before or after the undo's image
    loaded. *)
Theorem snapshot_undo_redo_in_order s :
  let s1 := saveState s in
  let s2 := undoCanvas s1 in
  let s3 := redoCanvas s2 in
  undoStack s3 = undoStack s1
  /\ redoStack s3 = redoStack s1
  /\ (undoStack s = [] -> s3 = s1)
  /\ (forall below,
        peek (undoStack s) = Some below ->
        peek (undoStack s1) = Some (toDataURL (pixels s1))
        /\ peek (undoStack s2) = Some below
        /\ pending s2 = pending s1 ++ [RestoreImage below]
        /\ s3 = set_pending
                  (pending s1
                     ++ [RestoreImage below; RestoreImage (toDataURL (pixels s1))])
                  s1
        /\ (forall r, below = toDataURL r -> pixels (settle s2) = r)
        /\ pixels (settle (redoCanvas (settle s2))) = pixels s1
        /\ pixels (settle s3) = pixels s1).
Proof.
  cbv zeta.
  assert (Hempty : undoStack s = [] ->
                   redoCanvas (undoCanvas (saveState s)) = saveState s).
  { intros Hu. rewrite undoCanvas_floor.
    - apply redoCanvas_empty, saveState_redoStack.
    - rewrite saveState_undoStack, Hu. cbn. lia. }
  assert (Hfull : forall below,
    peek (undoStack s) = Some below ->
    exists front,
      undoStack (saveState s) = front ++ [below; toDataURL (pixels s)]).
  { intros below Htop.
    assert (Hne : undoStack s <> [])
      by (destruct (undoStack s); [discriminate Htop | discriminate]).
    destruct (saveState_two_on_top s Hne) as (front & below' & Htop' & Hu).
    exists front. congruence. }
  destruct (undoStack s) as [|x u] eqn:Hu.
  - rewrite (Hempty eq_refl).
    split; [reflexivity|]. split; [reflexivity|]. split; [reflexivity|].
    intros below Htop. discriminate Htop.
  - assert (Htop : peek (x :: u) = Some (last u x)) by reflexivity.
    destruct (Hfull _ Htop) as (front & Hs1).
    pose proof (undo_redo _ _ _ _ Hs1) as Hs3.
    rewrite <- (saveState_pixels s) in Hs3 at 1.
    rewrite Hs3.
    split; [reflexivity|]. split; [reflexivity|]. split; [discriminate|].
    intros below Hbelow.
    assert (below = last u x) as -> by (cbn in Hbelow; congruence).
    pose proof (undoCanvas_pops _ _ _ _ Hs1) as Hs2.
    split; [apply saveState_committed|].
    split; [rewrite Hs2; fields; apply peek_push|].
    split; [rewrite Hs2; reflexivity|].
    split; [reflexivity|].
    split; [| split].
    + intros r Hr.
      apply (settle_restore _ (pending (saveState s))).
      rewrite Hs2, Hr. reflexivity.
    + rewrite saveState_pixels.
      apply (settle_restore _ []).
      erewrite redoCanvas_pops.
      * fields. rewrite settle_pending. reflexivity.
      * destruct (settle_stacks (undoCanvas (saveState s))) as [_ ->].
        rewrite Hs2. fields. rewrite saveState_redoStack. reflexivity.
    + apply (settle_restore _ (pending (saveState s) ++ [RestoreImage (last u x)])).
      fields. rewrite <- app_assoc. reflexivity.
Qed.

End RoundTrip.

(** ** The further properties at work *)

Section FurtherRuns.
#[local] Existing Instance Sketch.surface.
Local Open Scope float_scope.

(** The line tool chosen and the button pressed at (0,0). *)
Definition pressed_line : State :=
  run [ShapeSelected "line"; MouseDown (mouseAt 0 0)] Sketch.initial.

(** The canvas cleared once after the start: two entries to undo. *)
Definition cleared_once : State := run [ClearCanvas] Sketch.initial.

(** An undo and a redo whose two images have not loaded yet. *)
Definition two_waiting : State :=
  run [ClearCanvas; UndoCanvas; RedoCanvas] Sketch.initial.

(** The blank canvas filled with white, as every snapshot of these runs
    shows it. *)
Definition white : Raster :=
  {| Sketch.covered := true; Sketch.paint := "fill #ffffff;" |}.

(** X2 at work: the release of the line under way. *)
Lemma release_ends_session_witness :
  let released := after (MouseUp (Some (EMouse (mouseAt 20 20)))) dragging_line in
  drawing released = false /\ onMouseUp None released = inr released.
Proof.
  cbv zeta.
  destruct (release_ends_session (Some (EMouse (mouseAt 20 20))) dragging_line
              (after (MouseUp (Some (EMouse (mouseAt 20 20)))) dragging_line))
    as (Hidle & Hlater & _).
  - reflexivity.
  - vm_compute. reflexivity.
  - split; [exact Hidle | exact (proj1 (Hlater None))].
Defined.

(** X3 at work: a line from (1,2) to (3,4) on the initial canvas. *)
Lemma line_gesture_witness :
  exists s1 s2,
    onMouseDown (mouseAt 1 2) (onShapeSelected "line" Sketch.initial) = inr s1
    /\ onMouseUp (Some (EMouse (mouseAt 3 4))) s1 = inr s2
    /\ path s2 = [MoveTo 1 2; LineTo 3 4].
Proof.
  destruct (line_gesture (onShapeSelected "line" Sketch.initial)
              (mouseAt 1 2) (mouseAt 3 4) eq_refl)
    as (s1 & s2 & Hdown & Hup & Hpath & _).
  exists s1, s2. split; [exact Hdown|]. split; [exact Hup|].
  rewrite Hpath. reflexivity.
Defined.

(** X4 at work: the release of the stroke under way. *)
Lemma freehand_release_witness :
  exists s',
    onMouseUp (Some (EMouse (mouseAt 10 10))) mid_stroke = inr s'
    /\ pixels s' = pixels mid_stroke.
Proof.
  destruct (freehand_release (Some (EMouse (mouseAt 10 10))) mid_stroke
              eq_refl eq_refl eq_refl)
    as (s' & Hup & Hpixels & _).
  exists s'. split; assumption.
Defined.


(** X6 at work: a clear in the middle of the stroke under way. *)
Lemma clear_keeps_path_witness :
  path (clearCanvas mid_stroke) = path mid_stroke.
Proof.
  destruct (clear_keeps_path (mouseAt 20 20) mid_stroke eq_refl eq_refl)
    as (s' & _ & Hpath & _).
  exact Hpath.
Defined.

(** X9 at work: undo then redo with two entries to undo. *)
Lemma undo_redo_inverse_witness :
  undoStack (redoCanvas (undoCanvas cleared_once)) = undoStack cleared_once.
Proof.
  destruct (undo_redo_inverse cleared_once) as (Hundo & _).
  apply Hundo. vm_compute. repeat constructor.
Defined.

(** X10 at work: a clear after an undo. *)
Lemma commit_clears_redo_witness :
  redoStack (clearCanvas (undoCanvas cleared_once)) = [].
Proof.
  apply (commit_clears_redo ClearCanvas (undoCanvas cleared_once)); reflexivity.
Defined.

(** X11 at work: an undo with two entries to undo. *)
Lemma restore_settles_witness :
  committed (settle (undoCanvas cleared_once)).
Proof.
  destruct (restore_settles cleared_once) as (_ & Hundo & _).
  - apply run_reachable, initial_reachable.
  - apply Hundo. vm_compute. repeat constructor.
Defined.

(** X12 at work: the two images of an undo and a redo. *)
Lemma last_loaded_wins_witness :
  pixels (imageLoaded 0 (imageLoaded 0 two_waiting)) = white
  /\ pixels (imageLoaded 0 (imageLoaded 1 two_waiting)) = white.
Proof.
  destruct (last_loaded_wins two_waiting white white eq_refl)
    as ((Hin & _) & (Hout & _)).
  split; assumption.
Defined.

(** X13 at work: an undo keeps the stroke colour chosen after the
    snapshot it restores. *)
Lemma settings_frame_witness :
  strokeStyle (undoCanvas (changeColor "#ff0000" cleared_once)) = "#ff0000".
Proof.
  destruct (settings_frame UndoCanvas (changeColor "#ff0000" cleared_once) _ eq_refl)
    as (Hstroke & _).
  rewrite Hstroke; [reflexivity | discriminate].
Defined.

(** The line from (0,0) to (20,20) drawn and the session ended, as
    [onMouseUp] has the component just before it calls [saveState]. *)
Definition line_drawn : State :=
  stopDrawing (drawShape 0 0 20 20 pressed_line).

(** The canvas with that line on it. *)
Definition white_with_line : Raster :=
  {| Sketch.covered := true; Sketch.paint := "fill #ffffff;stroke #000000 ML;" |}.

(** C4: a line is committed, then undone and redone before either image
    has loaded.  The redo's image loads first and the undo's image last:
    the canvas ends white, without the line that was on it before the
    undo. *)
Lemma snapshot_undo_redo_out_of_order :
  let s1 := saveState line_drawn in
  let s3 := redoCanvas (undoCanvas s1) in
  s1 = after (MouseUp (Some (EMouse (mouseAt 20 20)))) pressed_line
  /\ reachable s3
  /\ pixels s1 = white_with_line
  /\ pending s3
     = [RestoreImage (toDataURL white); RestoreImage (toDataURL white_with_line)]
  /\ pixels (imageLoaded 0 (imageLoaded 1 s3)) = white
  /\ pending (imageLoaded 0 (imageLoaded 1 s3)) = []
  /\ pixels (imageLoaded 0 (imageLoaded 1 s3)) <> pixels s1.
Proof.
  cbv zeta.
  split; [vm_compute; reflexivity|].
  split.
  { replace (redoCanvas (undoCanvas (saveState line_drawn)))
      with (run [ShapeSelected "line"; MouseDown (mouseAt 0 0);
                 MouseUp (Some (EMouse (mouseAt 20 20)));
                 UndoCanvas; RedoCanvas] Sketch.initial)
      by (vm_compute; reflexivity).
    apply run_reachable, initial_reachable. }
  split; [vm_compute; reflexivity|].
  split; [vm_compute; reflexivity|].
  split; [vm_compute; reflexivity|].
  split; [vm_compute; reflexivity|].
  intros H. vm_compute in H. discriminate H.
Qed.

(** C4 at work: the same line committed, undone and redone, with the
    images loading in the order they were asked for. *)
Lemma snapshot_undo_redo_in_order_witness :
  pixels (settle (undoCanvas (saveState line_drawn))) = white
  /\ pixels (settle (redoCanvas (settle (undoCanvas (saveState line_drawn)))))
     = white_with_line
  /\ pixels (settle (redoCanvas (undoCanvas (saveState line_drawn))))
     = white_with_line.
Proof.
  pose proof (snapshot_undo_redo_in_order line_drawn) as H. cbv zeta in H.
  destruct H as (_ & _ & _ & H).
  destruct (H (toDataURL white)) as (_ & _ & _ & _ & Hundo & Hredo & Hboth).
  - vm_compute. reflexivity.
  - split; [exact (Hundo white eq_refl)|].
    split; [rewrite Hredo | rewrite Hboth]; vm_compute; reflexivity.
Defined.

End FurtherRuns.
